(** * The debugger event channel and the test runner of the C# extension

    A shallow embedding of

    - [DebugEventListener] (the event-bus revision, first unit of
      [src/unnamed/part_001]),
    - the earlier revision of the same class (second unit of
      [src/unnamed/part_001], repeated inside
      [src/src/features/documentSymbolProvider.ts]), and
    - [TestRunner] ([src/unnamed/part_002]), and
    - the providers of document symbols, code lenses and hover texts
      ([src/src/features/documentSymbolProvider.ts]),

    followed by the properties the specification states about them and
    by further properties read off the code.

    Conventions of the embedding.

    - Objects with identity (listener instances, servers) live in a store
      and are named by their index; the static field [s_activeInstance]
      is a field of the world.
    - A method is a function on worlds.  [this] is what the call binds
      it to: the instance where the method is called on it; the
      [net.Server] in [_configureSocket], which [start] hands to
      [net.createServer] without binding it; [undefined] in
      [_removeSocketFileIfExists], which [start] hands to [then] without
      binding it.  [_eventBus] is read as a Node [EventEmitter].
    - Everything Node, the file system or the upstream server decides
      (whether [listen] succeeds, when and with which argument a
      callback runs, what a request returns) is an input of the model.
    - Continuations of promises that are already settled run within the
      step that settled them; client callbacks are opaque and only
      recorded. *)

From Stdlib Require Import ZArith List Lia Strings.Byte Strings.Ascii.
From stdpp Require Import base option list strings pretty gmap.

(** ** JavaScript values and promises *)

Module Js.

(** The values that reach client callbacks here. *)
#[warnings="-register-all"] Inductive Value :=
| Number (n : Z)
| Array (items : list Value).

(** What a promise is rejected with, or what a [throw] carries. *)
Inductive Reason :=
| Undefined                      (* reject(undefined) *)
| Text (s : string)              (* reject(err.message) *)
| Error (message : string)       (* new Error(message) *)
| TypeError (message : string).  (* raised by the engine *)

(** [`${reason}`] in a template literal.  For an error object this is
    [Error.prototype.toString]: the name alone when the message is
    empty, otherwise the name, a colon and the message. *)
Definition toString (r : Reason) : string :=
  match r with
  | Undefined => "undefined"
  | Text s => s
  | Error EmptyString => "Error"
  | Error m => "Error: " +:+ m
  | TypeError EmptyString => "TypeError"
  | TypeError m => "TypeError: " +:+ m
  end.

Inductive Settled :=
| Fulfilled
| Rejected (r : Reason).

Inductive Promise :=
| Pending
| Done (s : Settled).

(** [resolve()] and [reject(r)] only act on a pending promise. *)
Definition settle (s : Settled) (p : Promise) : Promise :=
  match p with
  | Pending => Done s
  | Done _ => p
  end.

End Js.

(** ** The packet codec ([../coreclr-debug/debuggerEventsProtocol]) *)

Module DebuggerEventsProtocol.

(** Modelled from the spec: the module [debuggerEventsProtocol] is not
    among the sources.  The event names it exports. *)
Inductive EventType :=
| ProcessLaunched
| DebuggingStopped.

(** Modelled from the spec: the tagged union of decoded events (section 3
    of the specification). *)
Inductive DebuggerEvent :=
| ProcessLaunchedEvent (targetProcessId : Z)
| DebuggingStoppedEvent.

Definition eventType (e : DebuggerEvent) : EventType :=
  match e with
  | ProcessLaunchedEvent _ => ProcessLaunched
  | DebuggingStoppedEvent => DebuggingStopped
  end.

Inductive DecodeError := MalformedPacket.

(** Four bytes, least significant first. *)
Definition readUInt32LE (b0 b1 b2 b3 : byte) : Z :=
  Z.lor (Z.of_N (Byte.to_N b0))
    (Z.lor (Z.shiftl (Z.of_N (Byte.to_N b1)) 8)
       (Z.lor (Z.shiftl (Z.of_N (Byte.to_N b2)) 16)
          (Z.shiftl (Z.of_N (Byte.to_N b3)) 24))).

Definition readInt32LE (b0 b1 b2 b3 : byte) : Z :=
  let u := readUInt32LE b0 b1 b2 b3 in
  if Z.testbit u 31 then (u - 2 ^ 32)%Z else u.

(** Modelled from the spec: [decodePacket] is not among the sources.
    Sections 4.1 and 6 of the specification: a 4-byte little-endian
    event type code (0 = ProcessLaunched, 1 = DebuggingStopped); for
    ProcessLaunched a 4-byte little-endian signed process id follows.
    Too few bytes or another code fail with [MalformedPacket]; bytes
    after the frame are not looked at.  [inr] stands for the exception
    the function throws. *)
Definition decodePacket (packet : list byte) : DebuggerEvent + DecodeError :=
  match packet with
  | t0 :: t1 :: t2 :: t3 :: payload =>
      let code := readUInt32LE t0 t1 t2 t3 in
      if (code =? 0)%Z then
        match payload with
        | p0 :: p1 :: p2 :: p3 :: _ =>
            inl (ProcessLaunchedEvent (readInt32LE p0 p1 p2 p3))
        | _ => inr MalformedPacket
        end
      else if (code =? 1)%Z then inl DebuggingStoppedEvent
      else inr MalformedPacket
  | _ => inr MalformedPacket
  end.

#[global] Instance EventType_eq_dec : EqDecision EventType.
Proof. solve_decision. Defined.

End DebuggerEventsProtocol.

(** ** Node's [EventEmitter], as far as the listener uses it *)

Module EventEmitter.
Import DebuggerEventsProtocol.

(** A client callback, known by its identity only. *)
Abbreviation Listener := nat.

(** The registrations of an emitter, oldest first. *)
Abbreviation t := (list (EventType * Listener)).

Definition addListener (event : EventType) (l : Listener) (bus : t) : t :=
  bus ++ [(event, l)].

(** Drops the first registration equal to [r]. *)
Fixpoint remove_first (r : EventType * Listener) (bus : t) : t :=
  match bus with
  | [] => []
  | r' :: rest => if decide (r' = r) then rest else r' :: remove_first r rest
  end.

(** [removeListener] removes at most one registration, the most recently
    added one. *)
Definition removeListener (event : EventType) (l : Listener) (bus : t) : t :=
  rev (remove_first (event, l) (rev bus)).

(** The callbacks [emit(event, ...)] calls, in the order it calls them. *)
Definition listeners (event : EventType) (bus : t) : list Listener :=
  map snd (filter (λ r, r.1 = event) bus).

End EventEmitter.

(** ** [DebugEventListener], event-bus revision
    (first unit of [src/unnamed/part_001]) *)

Module DebugEventListener.
Import DebuggerEventsProtocol.

(** Identity of a [DebugEventListener] object and of a [net.Server]. *)
Abbreviation InstId := nat.
Abbreviation ServerId := nat.

(** The fields of an instance.  [_serverSocket] is declared without an
    initialiser, so it holds [undefined] ([None]) until [start] assigns
    it; nothing ever assigns [null]. *)
Record Instance := {
  _eventBus : EventEmitter.t;
  _pipePath : string;
  _serverSocket : option ServerId;
  _isClosed : bool
}.

(** Who consumes the promise a call of [close] returns. *)
Inductive Cont :=
| Dropped                (* _onDebuggingStopped ignores it *)
| Caller                 (* a client holds it *)
| StartOf (j : InstId).  (* start() of [j] chained its steps on it *)

(** The callback handed to [server.close], waiting to be run. *)
Record CloseCallback := {
  cc_this : InstId;
  cc_server : ServerId;
  cc_cont : Cont
}.

(** One call of [_startListening]: the server, the [start] it belongs
    to, its local [isStarted] and the promise it returned. *)
Record Listen := {
  l_server : ServerId;
  l_start : InstId;
  isStarted : bool;
  l_promise : Js.Promise
}.

(** What the listener does to its surroundings, in the order it happens. *)
Inductive Obs :=
| Called (l : EventEmitter.Listener) (args : list Js.Value)
| Logged (line : string)
| ServerListen (s : ServerId) (path : string)
| ServerClose (s : ServerId)
| DeleteIfExists (path : string)   (* utils.deleteIfExists(path) *)
| StartSettled (j : InstId) (r : Js.Settled)
| CloseSettled (i : InstId) (r : Js.Settled)
| Threw (r : Js.Reason).   (* an exception that leaves a handler of a socket *)

Record World := {
  win32 : bool;                          (* os.platform() === 'win32' *)
  s_activeInstance : option InstId;      (* static slot; null is None *)
  heap : list Instance;
  nextServer : ServerId;
  listens : list Listen;
  pendingClose : list CloseCallback;
  trace : list Obs
}.

Definition initial (onWin32 : bool) : World :=
  {| win32 := onWin32; s_activeInstance := None; heap := [];
     nextServer := 0; listens := []; pendingClose := [];
     trace := [] |}.

(** *** Field updates *)

Definition set_slot (v : option InstId) (w : World) : World :=
  {| win32 := win32 w; s_activeInstance := v; heap := heap w;
     nextServer := nextServer w; listens := listens w;
     pendingClose := pendingClose w;
     trace := trace w |}.

Definition set_heap (h : list Instance) (w : World) : World :=
  {| win32 := win32 w; s_activeInstance := s_activeInstance w; heap := h;
     nextServer := nextServer w; listens := listens w;
     pendingClose := pendingClose w;
     trace := trace w |}.

Definition set_nextServer (n : ServerId) (w : World) : World :=
  {| win32 := win32 w; s_activeInstance := s_activeInstance w; heap := heap w;
     nextServer := n; listens := listens w;
     pendingClose := pendingClose w;
     trace := trace w |}.

Definition set_listens (ls : list Listen) (w : World) : World :=
  {| win32 := win32 w; s_activeInstance := s_activeInstance w; heap := heap w;
     nextServer := nextServer w; listens := ls;
     pendingClose := pendingClose w;
     trace := trace w |}.

Definition set_pendingClose (cs : list CloseCallback) (w : World) : World :=
  {| win32 := win32 w; s_activeInstance := s_activeInstance w; heap := heap w;
     nextServer := nextServer w; listens := listens w;
     pendingClose := cs;
     trace := trace w |}.

Definition observe (o : list Obs) (w : World) : World :=
  {| win32 := win32 w; s_activeInstance := s_activeInstance w; heap := heap w;
     nextServer := nextServer w; listens := listens w;
     pendingClose := pendingClose w;
     trace := trace w ++ o |}.

Definition update (this : InstId) (f : Instance → Instance) (w : World) : World :=
  set_heap (alter f this (heap w)) w.

Definition with_eventBus (bus : EventEmitter.t) (o : Instance) : Instance :=
  {| _eventBus := bus; _pipePath := _pipePath o;
     _serverSocket := _serverSocket o; _isClosed := _isClosed o |}.

Definition with_serverSocket (s : ServerId) (o : Instance) : Instance :=
  {| _eventBus := _eventBus o; _pipePath := _pipePath o;
     _serverSocket := Some s; _isClosed := _isClosed o |}.

Definition with_isClosed (b : bool) (o : Instance) : Instance :=
  {| _eventBus := _eventBus o; _pipePath := _pipePath o;
     _serverSocket := _serverSocket o; _isClosed := b |}.

Definition with_isStarted (b : bool) (c : Listen) : Listen :=
  {| l_server := l_server c; l_start := l_start c;
     isStarted := b; l_promise := l_promise c |}.

Definition with_promise (p : Js.Promise) (c : Listen) : Listen :=
  {| l_server := l_server c; l_start := l_start c;
     isStarted := isStarted c; l_promise := p |}.

(** [this._logger.appendLine(line)]; without argument the line is empty. *)
Definition appendLine (line : string) (w : World) : World :=
  observe [Logged line] w.

(** *** The constructor *)

(** [new DebugEventListener(logger)].  The pipe path, which the
    constructor derives from the platform, the process id and the
    extension path, is taken as given. *)
Definition new (pipePath : string) (w : World) : World :=
  set_heap (heap w ++ [{| _eventBus := []; _pipePath := pipePath;
                          _serverSocket := None; _isClosed := false |}]) w.

(** *** Listeners *)

Definition _addListener (this : InstId) (event : EventType)
    (listener : EventEmitter.Listener) (w : World) : World :=
  update this (λ o, with_eventBus (EventEmitter.addListener event listener (_eventBus o)) o) w.

(** Disposing of the [vscode.Disposable] that [_addListener] returned. *)
Definition dispose (this : InstId) (event : EventType)
    (listener : EventEmitter.Listener) (w : World) : World :=
  update this (λ o, with_eventBus (EventEmitter.removeListener event listener (_eventBus o)) o) w.

(** [_fireEvent(event, ...args)] is [this._eventBus.emit(event, args)]:
    the rest array [args] itself is the one argument of every callback. *)
Definition _fireEvent (this : InstId) (event : EventType)
    (args : list Js.Value) (w : World) : World :=
  match heap w !! this with
  | Some o =>
      observe (map (λ l, Called l [Js.Array args])
                 (EventEmitter.listeners event (_eventBus o))) w
  | None => w
  end.

Definition onProcessLaunched := λ this, _addListener this ProcessLaunched.
Definition onDebuggingStopped := λ this, _addListener this DebuggingStopped.

(** *** Listening *)

(** [_startListening(server)]: a fresh promise with [isStarted = false],
    an ['error'] handler on the server and [server.listen(_pipePath, ...)].
    The server is the value of [this._serverSocket] when the step runs. *)
Definition _startListening (this : InstId) (w : World) : World :=
  match heap w !! this with
  | Some o =>
      match _serverSocket o with
      | Some s =>
          observe [ServerListen s (_pipePath o)]
            (set_listens (listens w ++
               [{| l_server := s; l_start := this;
                   isStarted := false; l_promise := Js.Pending |}]) w)
      | None =>
          observe [StartSettled this
                     (Js.Rejected (Js.TypeError "Cannot read property 'on' of undefined"))] w
      end
  | None => w
  end.

(** The ['error'] handler of the [c]-th [_startListening]. *)
Definition onServerError (c : nat) (message : string) (w : World) : World :=
  match listens w !! c with
  | Some lc =>
      if negb (isStarted lc) then
        (* reject(err.message) *)
        let settledNow :=
          match l_promise lc with
          | Js.Pending => [StartSettled (l_start lc) (Js.Rejected (Js.Text message))]
          | Js.Done _ => []
          end in
        observe settledNow
          (set_listens
             (<[c := with_promise (Js.settle (Js.Rejected (Js.Text message)) (l_promise lc)) lc]>
                (listens w)) w)
      else
        appendLine ("Warning: Communications error on debugger event channel. " +:+ message) w
  | None => w
  end.

(** The callback given to [server.listen] in the [c]-th [_startListening]. *)
Definition onListening (c : nat) (w : World) : World :=
  match listens w !! c with
  | Some lc =>
      let settledNow :=
        match l_promise lc with
        | Js.Pending => [StartSettled (l_start lc) Js.Fulfilled]
        | Js.Done _ => []
        end in
      observe settledNow
        (set_listens
           (<[c := with_promise (Js.settle Js.Fulfilled (l_promise lc))
                     (with_isStarted true lc)]> (listens w)) w)
  | None => w
  end.

(** [_removeSocketFileIfExists] as [start] of [starting] runs it, followed
    by the last step of that [start].  [start] writes
    [.then(this._removeSocketFileIfExists)]: the promise calls the
    function with [this] undefined.  On win32 the function returns a
    resolved promise without reading [this], and [_startListening] runs.
    Elsewhere reading [this._pipePath] throws: [utils.deleteIfExists] is
    not called, the last step is skipped and the promise of [start] is
    rejected with the [TypeError]. *)
Definition _removeSocketFileIfExists (starting : InstId) (w : World) : World :=
  if win32 w then _startListening starting w
  else
    observe [StartSettled starting
               (Js.Rejected (Js.TypeError "Cannot read property '_pipePath' of undefined"))] w.

(** The steps [start] chains after [_clearActiveInstance()] is fulfilled:
    take the slot, create the server (with [this._configureSocket], not
    bound, as its connection listener), then the two steps above. *)
Definition start_then (this : InstId) (w : World) : World :=
  let s := nextServer w in
  _removeSocketFileIfExists this
    (update this (with_serverSocket s)
       (set_nextServer (S s) (set_slot (Some this) w))).

(** *** Closing *)

(** A promise returned by [close] on [this] has settled with [r]. *)
Definition settled (this : InstId) (k : Cont) (r : Js.Settled) (w : World) : World :=
  match k with
  | Dropped => w
  | Caller => observe [CloseSettled this r] w
  | StartOf j =>
      match r with
      | Js.Fulfilled => start_then j w
      | Js.Rejected x => observe [StartSettled j (Js.Rejected x)] w
      end
  end.

Definition close (this : InstId) (k : Cont) (w : World) : World :=
  match heap w !! this with
  | Some o =>
      let w :=
        if decide (s_activeInstance w = Some this) then set_slot None w else w in
      if _isClosed o then settled this k Js.Fulfilled w
      else
        match _serverSocket o with
        | Some s =>
            (* this._serverSocket.close(err => ...) *)
            observe [ServerClose s]
              (set_pendingClose
                 (pendingClose w ++
                    [{| cc_this := this; cc_server := s; cc_cont := k |}]) w)
        | None =>
            (* undefined !== null, so .close is read from undefined *)
            settled this k
              (Js.Rejected (Js.TypeError "Cannot read property 'close' of undefined")) w
        end
  | None => w
  end.

(** The callback of [server.close] runs with [err]: [None] when the
    server was open and has now closed, [Some _] when it was not open. *)
Definition onServerClosed (k : nat) (err : option string) (w : World) : World :=
  match pendingClose w !! k with
  | Some cb =>
      let w := set_pendingClose (delete k (pendingClose w)) w in
      let r :=
        match err with
        | None => Js.Rejected Js.Undefined      (* if (!err) reject(err) *)
        | Some _ => Js.Fulfilled                (* else resolve() *)
        end in
      (* the promise's consumers run once the callback has returned *)
      settled (cc_this cb) (cc_cont cb) r
        (update (cc_this cb) (with_isClosed true) w)
  | None => w
  end.

(** [_onDebuggingStopped()] called on the instance [this].  The socket
    handlers, the only callers, do not call it there (see below). *)
Definition _onDebuggingStopped (this : InstId) (w : World) : World :=
  match heap w !! this with
  | Some o =>
      if _isClosed o then w
      else close this Dropped (_fireEvent this DebuggingStopped [] w)
  | None => w
  end.

(** [_clearActiveInstance()], with the steps [start] of [starting]
    chains on the promise it returns. *)
Definition _clearActiveInstance (starting : InstId) (w : World) : World :=
  match s_activeInstance w with
  | Some active => close active (StartOf starting) w
  | None => start_then starting w
  end.

Definition start (this : InstId) (w : World) : World :=
  match heap w !! this with
  | Some _ => _clearActiveInstance this w
  | None => w
  end.

(** *** The socket handlers of [_configureSocket] *)

Section Sockets.

Variable decodePacket : list byte → DebuggerEvent + DecodeError.

(** [start] creates the server with [net.createServer(this._configureSocket)]:
    the method is handed over as it is, not bound to the instance.  Node
    calls it as a listener of the server's ['connection'] event, so in
    its body [this] is the [net.Server], and the arrow functions it
    installs on the socket keep that [this].  A [net.Server] has no
    [_logger] and no [_onDebuggingStopped]: reading [appendLine] from
    [this._logger] and calling [this._onDebuggingStopped] throw a
    [TypeError], which nothing catches and which leaves the handler. *)
Definition appendLine_on_server (server : ServerId) (line : string) (w : World) : World :=
  observe [Threw (Js.TypeError "Cannot read property 'appendLine' of undefined")] w.

Definition _onDebuggingStopped_on_server (server : ServerId) (w : World) : World :=
  observe [Threw (Js.TypeError "this._onDebuggingStopped is not a function")] w.

(** The ['data'] handler on a connection of [server].  The chunk is all
    it decodes.  Each branch starts with a line for the logger, where it
    throws: also the [catch] block, whose exception is not caught
    again. *)
Definition onData (server : ServerId) (buffer : list byte) (w : World) : World :=
  match decodePacket buffer with
  | inr _ => appendLine_on_server server "Warning: Invalid event received from debugger" w
  | inl (ProcessLaunchedEvent targetProcessId) =>
      (* _fireEvent is not reached *)
      appendLine_on_server server
        ("Started debugging process #" +:+ pretty targetProcessId +:+ ".") w
  | inl DebuggingStoppedEvent =>
      (* the second line and _onDebuggingStopped are not reached *)
      appendLine_on_server server "Debugging complete." w
  end.

(** The ['end'] handler on a connection of [server]. *)
Definition onEnd (server : ServerId) (w : World) : World :=
  _onDebuggingStopped_on_server server w.

(** *** Runs *)

(** Calls of clients and events of the environment. *)
Inductive Input :=
| New (pipePath : string)
| Start (i : InstId)
| Close (i : InstId)
| OnProcessLaunched (i : InstId) (l : EventEmitter.Listener)
| OnDebuggingStopped (i : InstId) (l : EventEmitter.Listener)
| Dispose (i : InstId) (e : EventType) (l : EventEmitter.Listener)
| Data (s : ServerId) (connection : nat) (chunk : list byte)
| End_ (s : ServerId) (connection : nat)
| Listening (c : nat)
| ServerError (c : nat) (message : string)
| ServerClosed (k : nat) (err : option string).

Definition step (w : World) (i : Input) : World :=
  match i with
  | New path => new path w
  | Start i => start i w
  | Close i => close i Caller w
  | OnProcessLaunched i l => onProcessLaunched i l w
  | OnDebuggingStopped i l => onDebuggingStopped i l w
  | Dispose i e l => dispose i e l w
  | Data s _ chunk => onData s chunk w
  | End_ s _ => onEnd s w
  | Listening c => onListening c w
  | ServerError c m => onServerError c m w
  | ServerClosed k err => onServerClosed k err w
  end.

Definition run (w : World) (inputs : list Input) : World :=
  fold_left step inputs w.

End Sockets.

End DebugEventListener.

(** ** [DebugEventListener], earlier revision
    (second unit of [src/unnamed/part_001]; the same class is embedded in
    [src/src/features/documentSymbolProvider.ts]) *)

Module DebugEventListenerSync.
Import DebuggerEventsProtocol.

Abbreviation InstId := nat.
Abbreviation ServerId := nat.

Record Instance := {
  _fileName : string;
  _pipePath : string;
  _serverSocket : option ServerId;
  _isClosed : bool
}.

Inductive Obs :=
| Logged (line : string)
| DebugTestLaunch (fileName : string) (targetProcessId : Z)
| DebugTestStop (fileName : string)
| ServerClose (s : ServerId)
| Threw (r : Js.Reason).

Record World := {
  s_activeInstance : option InstId;
  heap : list Instance;
  nextServer : ServerId;
  trace : list Obs
}.

Definition initial : World :=
  {| s_activeInstance := None; heap := []; nextServer := 0; trace := [] |}.

Definition set_slot (v : option InstId) (w : World) : World :=
  {| s_activeInstance := v; heap := heap w;
     nextServer := nextServer w; trace := trace w |}.

Definition set_heap (h : list Instance) (w : World) : World :=
  {| s_activeInstance := s_activeInstance w; heap := h;
     nextServer := nextServer w; trace := trace w |}.

Definition set_nextServer (n : ServerId) (w : World) : World :=
  {| s_activeInstance := s_activeInstance w; heap := heap w;
     nextServer := n; trace := trace w |}.

Definition observe (o : list Obs) (w : World) : World :=
  {| s_activeInstance := s_activeInstance w; heap := heap w;
     nextServer := nextServer w; trace := trace w ++ o |}.

Definition with_serverSocket (s : ServerId) (o : Instance) : Instance :=
  {| _fileName := _fileName o; _pipePath := _pipePath o;
     _serverSocket := Some s; _isClosed := _isClosed o |}.

Definition with_isClosed (b : bool) (o : Instance) : Instance :=
  {| _fileName := _fileName o; _pipePath := _pipePath o;
     _serverSocket := _serverSocket o; _isClosed := b |}.

Definition update (this : InstId) (f : Instance → Instance) (w : World) : World :=
  set_heap (alter f this (heap w)) w.

Definition appendLine (line : string) (w : World) : World :=
  observe [Logged line] w.

(** [new DebugEventListener(fileName, server, logger)]. *)
Definition new (fileName pipePath : string) (w : World) : World :=
  set_heap (heap w ++ [{| _fileName := fileName; _pipePath := pipePath;
                          _serverSocket := None; _isClosed := false |}]) w.

(** [close()] sets [_isClosed] before it closes the server. *)
Definition close (this : InstId) (w : World) : World :=
  match heap w !! this with
  | Some o =>
      let w :=
        if decide (s_activeInstance w = Some this) then set_slot None w else w in
      if _isClosed o then w
      else
        let w := update this (with_isClosed true) w in
        match _serverSocket o with
        | Some s => observe [ServerClose s] w
        | None =>
            observe [Threw (Js.TypeError "Cannot read property 'close' of undefined")] w
        end
  | None => w
  end.

(** The part of [start()] that runs at the call: close the holder of the
    slot (which has been started, so its [close] does not throw), take
    the slot, create the server.  What follows (removing the socket
    file, listening) has the shape of [_startListening] in the other
    revision. *)
Definition start (this : InstId) (w : World) : World :=
  match heap w !! this with
  | Some _ =>
      let w :=
        match s_activeInstance w with
        | Some active => close active w
        | None => w
        end in
      let s := nextServer w in
      update this (with_serverSocket s)
        (set_nextServer (S s) (set_slot (Some this) w))
  | None => w
  end.

(** [onProcessLaunched]: the launch request for the target process. *)
Definition onProcessLaunched (this : InstId) (targetProcessId : Z) (w : World) : World :=
  match heap w !! this with
  | Some o => observe [DebugTestLaunch (_fileName o) targetProcessId] w
  | None => w
  end.

Definition onDebuggingStopped (this : InstId) (w : World) : World :=
  match heap w !! this with
  | Some o =>
      if _isClosed o then w
      else close this (observe [DebugTestStop (_fileName o)] w)
  | None => w
  end.

Section Sockets.

Variable decodePacket : list byte → DebuggerEvent + DecodeError.

(** The ['data'] handler installed by [start]. *)
Definition onData (this : InstId) (buffer : list byte) (w : World) : World :=
  match decodePacket buffer with
  | inr _ => appendLine "Warning: Invalid event received from debugger" w
  | inl (ProcessLaunchedEvent targetProcessId) =>
      onProcessLaunched this targetProcessId
        (appendLine ("Started debugging process #" +:+ pretty targetProcessId +:+ ".") w)
  | inl DebuggingStoppedEvent =>
      onDebuggingStopped this
        (appendLine EmptyString (appendLine "Debugging complete." w))
  end.

(** The ['end'] handler. *)
Definition onEnd (this : InstId) (w : World) : World :=
  onDebuggingStopped this w.

End Sockets.

End DebugEventListenerSync.

(** ** [TestRunner] ([src/unnamed/part_002]) *)

Module TestRunner.

(** *** The upstream protocol ([../omnisharp/protocol], namespace V2) *)

(** Modelled from the spec: the protocol declarations are not among the
    sources.  The request of [runTest], [getTestStartInfo] and
    [debugTestGetStartInfo] carries the same three fields. *)
Record TestRequest := {
  FileName : string;
  MethodName : string;
  TestFrameworkName : string
}.

(** Modelled from the spec: one entry of the result list of a test run;
    [Outcome] is its outcome tag. *)
Record DotNetTestResult := {
  ResultMethodName : string;
  Outcome : string
}.

(** Modelled from the spec: the outcome tags of [protocol.V2.TestOutcomes]
    that [_reportResults] compares with.  Their values are not among the
    sources. *)
Record TestOutcomes := {
  Failed : string;
  Passed : string;
  Skipped : string
}.

Module GetTestStartInfoResponse.
(** Modelled from the spec: start info of the legacy variant. *)
Record t := {
  Executable : string;
  Argument : string;
  WorkingDirectory : string
}.
End GetTestStartInfoResponse.

Module DebugTestGetStartInfoResponse.
(** Modelled from the spec: start info of the vstest variant. *)
Record t := {
  FileName : string;
  Arguments : string;
  WorkingDirectory : string
}.
End DebugTestGetStartInfoResponse.

(** Modelled from the spec: project metadata.  A marker is an object when
    the project is of that kind and absent otherwise; only its presence
    is looked at. *)
Record ProjectMarker := { Path : string }.

Record WorkspaceInformationResponse := {
  DotNetProject : option ProjectMarker;
  MsBuildProject : option ProjectMarker
}.

Inductive Request :=
| RunTest (r : TestRequest)
| GetTestStartInfo (r : TestRequest)
| DebugTestGetStartInfo (r : TestRequest)
| ProjectInformation (fileName : string).

(** *** The collaborators *)

(** How an awaited call ends. *)
Inductive Answer (A : Type) :=
| Resolved (a : A)
| Rejected (r : Js.Reason)
| Unanswered.
Arguments Resolved {A} a.
Arguments Rejected {A} r.
Arguments Unanswered {A}.

(** A JSON value of the launch configuration: [null], a string, or
    anything else, kept as its JSON text. *)
Inductive Json :=
| JNull
| JString (s : string)
| JRaw (text : string).

(** The value of the setting [csharp.unitTestDebugingOptions]. *)
Inductive Setting :=
| NotAnObject                          (* typeof is not "object" *)
| NullValue                            (* null: typeof is "object" *)
| Object (fields : gmap string Json).  (* an object; an array is one keyed by index *)

Record Environment := {
  saveAll : Answer bool;
  runTestAnswer : TestRequest → Answer (list DotNetTestResult);
  requestProjectInformation : string → Answer WorkspaceInformationResponse;
  getTestStartInfo : TestRequest → Answer GetTestStartInfoResponse.t;
  debugTestGetStartInfo : TestRequest → Answer DebugTestGetStartInfoResponse.t;
  testMessages : Request → list string;   (* pushed while the request is in flight *)
  unitTestDebugingOptions : Setting;
  listenerStart : Answer unit;            (* debugEventListener.start() *)
  listenerPipePath : string;              (* debugEventListener.pipePath() *)
  startDebug : gmap string Json → Answer unit
}.

Inductive Effect :=
| ShowChannel
| Log (line : string)
| Subscribe
| Unsubscribe
| SaveAll
| Send (r : Request)
| NewDebugEventListener (fileName : string)
| ListenerStart
| ListenerClose
| StartDebug (config : gmap string Json)
| ShowErrorMessage (message : string).

(** How a session ended: the chain ran through, its [catch] handler ran
    with a reason, or an awaited call never answered. *)
Inductive Session :=
| Completed
| Failure (reason : Js.Reason)
| Hung.

(** Modelled from the spec: [Logger] is not among the sources.
    [appendLine(m)] hands [m] and a line break to the writer, which
    appends to the output channel.  The text of the channel: *)
Fixpoint output (effects : list Effect) : string :=
  match effects with
  | [] => EmptyString
  | Log line :: rest => line +:+ String "010"%char (output rest)
  | _ :: rest => output rest
  end.

(** [haystack.includes(needle)]. *)
Fixpoint includes (needle haystack : string) : bool :=
  String.prefix needle haystack ||
  match haystack with
  | EmptyString => false
  | String _ rest => includes needle rest
  end.

(** *** [_reportResults] *)

Record Totals := {
  totalPassed : nat;
  totalFailed : nat;
  totalSkipped : nat
}.

Section Reporting.

Variable TestOutcomes_ : TestOutcomes.

(** The body of the loop: the [switch] on [result.Outcome]. *)
Definition tally (t : Totals) (result : DotNetTestResult) : Totals :=
  if decide (Outcome result = Failed TestOutcomes_) then
    {| totalPassed := totalPassed t; totalFailed := totalFailed t + 1;
       totalSkipped := totalSkipped t |}
  else if decide (Outcome result = Passed TestOutcomes_) then
    {| totalPassed := totalPassed t + 1; totalFailed := totalFailed t;
       totalSkipped := totalSkipped t |}
  else if decide (Outcome result = Skipped TestOutcomes_) then
    {| totalPassed := totalPassed t; totalFailed := totalFailed t;
       totalSkipped := totalSkipped t + 1 |}
  else t.

Definition totals (results : list DotNetTestResult) : Totals :=
  fold_left tally results
    {| totalPassed := 0; totalFailed := 0; totalSkipped := 0 |}.

Definition summary (totalTests : nat) (t : Totals) : string :=
  "Total tests: " +:+ pretty totalTests +:+
  ". Passed: " +:+ pretty (totalPassed t) +:+
  ". Failed: " +:+ pretty (totalFailed t) +:+
  ". Skipped: " +:+ pretty (totalSkipped t).

Definition _reportResults (results : list DotNetTestResult) : list Effect :=
  let totalTests := length results in
  [Log EmptyString; Log (summary totalTests (totals results)); Log EmptyString].

(** *** [runTest] *)

Definition runTest (env : Environment)
    (testMethod fileName testFrameworkName : string) : list Effect * Session :=
  let failed reason :=
    ([Unsubscribe;
      ShowErrorMessage ("Failed to run test because " +:+ Js.toString reason +:+ ".")],
     Failure reason) in
  let request :=
    {| FileName := fileName; MethodName := testMethod;
       TestFrameworkName := testFrameworkName |} in
  let '(effects, session) :=
    match saveAll env with
    | Resolved _ =>
        let '(effects, session) :=
          match runTestAnswer env request with
          | Resolved results => (_reportResults results ++ [Unsubscribe], Completed)
          | Rejected reason => failed reason
          | Unanswered => ([], Hung)
          end in
        (Send (RunTest request) :: map Log (testMessages env (RunTest request)) ++ effects,
         session)
    | Rejected reason => failed reason
    | Unanswered => ([], Hung)
    end in
  ([ShowChannel; Log ("Running test " +:+ testMethod +:+ "..."); Log EmptyString;
    Subscribe; SaveAll] ++ effects, session).

End Reporting.

(** *** Launch configurations *)

(** [_createLaunchConfiguration].  The clone of the options, or an empty
    object, receives the seven fields; writing a field of [null] throws. *)
Definition _createLaunchConfiguration (env : Environment)
    (program args cwd : string) (debuggerEventsPipeName : Json)
    : gmap string Json + Js.Reason :=
  let fill (result : gmap string Json) :=
    <["cwd" := JString cwd]>
      (<["args" := JString args]>
         (<["program" := JString program]>
            (<["debuggerEventsPipeName" := debuggerEventsPipeName]>
               (<["request" := JString "launch"]>
                  (<["type" := JString "coreclr"]>
                     (<["name" := JString ".NET Test Launch"]> result)))))) in
  match unitTestDebugingOptions env with
  | Object debugOptions => inl (fill debugOptions)
  | NullValue => inr (Js.TypeError "Cannot set property 'name' of null")
  | NotAnObject => inl (fill ∅)
  end.

(** The two values [debugType] takes before it is read. *)
Inductive DebugType := legacy | vstest.

Definition _getLaunchConfigurationForVSTest (env : Environment)
    (fileName testMethod testFrameworkName : string)
    : list Effect * Answer (gmap string Json) :=
  let request :=
    {| FileName := fileName; MethodName := testMethod;
       TestFrameworkName := testFrameworkName |} in
  let sent :=
    Subscribe :: Send (DebugTestGetStartInfo request)
      :: map Log (testMessages env (DebugTestGetStartInfo request)) in
  match debugTestGetStartInfo env request with
  | Resolved response =>
      (sent ++ [Unsubscribe],
       match
         _createLaunchConfiguration env
           (DebugTestGetStartInfoResponse.FileName response)
           (DebugTestGetStartInfoResponse.Arguments response)
           (DebugTestGetStartInfoResponse.WorkingDirectory response)
           (JString (listenerPipePath env))
       with
       | inl config => Resolved config
       | inr thrown => Rejected thrown
       end)
  | Rejected reason => (sent, Rejected reason)
  | Unanswered => (sent, Unanswered)
  end.

Definition _getLaunchConfigurationForLegacy (env : Environment)
    (fileName testMethod testFrameworkName : string)
    : list Effect * Answer (gmap string Json) :=
  let request :=
    {| FileName := fileName; MethodName := testMethod;
       TestFrameworkName := testFrameworkName |} in
  let sent :=
    Subscribe :: Send (GetTestStartInfo request)
      :: map Log (testMessages env (GetTestStartInfo request)) in
  match getTestStartInfo env request with
  | Resolved response =>
      (sent ++ [Unsubscribe],
       match
         _createLaunchConfiguration env
           (GetTestStartInfoResponse.Executable response)
           (GetTestStartInfoResponse.Argument response)
           (GetTestStartInfoResponse.WorkingDirectory response)
           JNull
       with
       | inl config => Resolved config
       | inr thrown => Rejected thrown
       end)
  | Rejected reason => (sent, Rejected reason)
  | Unanswered => (sent, Unanswered)
  end.

Definition _getLaunchConfiguration (env : Environment) (debugType : DebugType)
    (fileName testMethod testFrameworkName : string)
    : list Effect * Answer (gmap string Json) :=
  match debugType with
  | legacy => _getLaunchConfigurationForLegacy env fileName testMethod testFrameworkName
  | vstest => _getLaunchConfigurationForVSTest env fileName testMethod testFrameworkName
  end.

(** *** [debugTest] *)

(** The [catch] handler; [created] tells whether [debugEventListener] is
    set. *)
Definition debugTest_catch (created : bool) (reason : Js.Reason)
    : list Effect * Session :=
  (ShowErrorMessage ("Failed to start debugger: " +:+ Js.toString reason)
     :: (if created then [ListenerClose] else []),
   Failure reason).

(** The last two steps of the chain: build the configuration and hand it
    to the debugging front-end. *)
Definition debugTest_launch (env : Environment) (debugType : DebugType)
    (created : bool) (fileName testMethod testFrameworkName : string)
    : list Effect * Session :=
  let '(effects, answer) :=
    _getLaunchConfiguration env debugType fileName testMethod testFrameworkName in
  let '(rest, session) :=
    match answer with
    | Resolved config =>
        let '(rest, session) :=
          match startDebug env config with
          | Resolved _ => ([], Completed)
          | Rejected reason => debugTest_catch created reason
          | Unanswered => ([], Hung)
          end in
        (StartDebug config :: rest, session)
    | Rejected reason => debugTest_catch created reason
    | Unanswered => ([], Hung)
    end in
  (effects ++ rest, session).

Definition debugTest (env : Environment)
    (testMethod fileName testFrameworkName : string) : list Effect * Session :=
  let '(effects, session) :=
    match saveAll env with
    | Resolved _ =>
        let '(effects, session) :=
          match requestProjectInformation env fileName with
          | Resolved projectInfo =>
              match DotNetProject projectInfo, MsBuildProject projectInfo with
              | Some _, _ =>
                  debugTest_launch env legacy false fileName testMethod testFrameworkName
              | None, Some _ =>
                  let '(effects, session) :=
                    match listenerStart env with
                    | Resolved _ =>
                        debugTest_launch env vstest true fileName testMethod testFrameworkName
                    | Rejected reason => debugTest_catch true reason
                    | Unanswered => ([], Hung)
                    end in
                  (NewDebugEventListener fileName :: ListenerStart :: effects, session)
              | None, None =>
                  debugTest_catch false (Js.Error "Expected project.json or .csproj project.")
              end
          | Rejected reason => debugTest_catch false reason
          | Unanswered => ([], Hung)
          end in
        (Send (ProjectInformation fileName) :: effects, session)
    | Rejected reason => debugTest_catch false reason
    | Unanswered => ([], Hung)
    end in
  ([ShowChannel; Log ("Debugging method '" +:+ testMethod +:+ "'..."); Log EmptyString;
    SaveAll] ++ effects, session).

End TestRunner.

(** ** The syntax tree of the upstream server ([../omnisharp/protocol]) *)

Module Protocol.

(** Modelled from the spec: the protocol declarations are not among the
    sources, and the specification leaves them to the server.  The
    records hold the fields the providers read.  Of a location they read
    [Text]; the rest, the numbers [toRange] turns into a range, stays
    together as [Coordinates]. *)
Record QuickFix := {
  Text : string;
  Coordinates : list Z
}.

(** A feature of a node, as [_updateCodeLensForTest] reads it. *)
Record SyntaxFeature := {
  Name : string;
  Data : string
}.

(** A node of the tree of file members.  [ChildNodes] and [Features] may
    be missing ([None]). *)
#[warnings="-register-all"] Inductive Node := mkNode {
  Location : QuickFix;
  Kind : string;
  ChildNodes : option (list Node);
  Features : option (list SyntaxFeature)
}.

End Protocol.

(** ** [OmnisharpDocumentSymbolProvider]
    ([src/src/features/documentSymbolProvider.ts], first unit) *)

Module DocumentSymbolProvider.
Import Protocol.

(** The members of [vscode.SymbolKind] that occur in [_kinds]. *)
Inductive SymbolKind :=
| KClass | KEnum | KInterface | KVariable | KProperty | KEvent | KField | KMethod
| KNamespace.

(** [_kinds]: an object without prototype with eleven entries. *)
Definition _kinds : gmap string SymbolKind :=
  <["NamespaceDeclaration" := KNamespace]>
    (<["PropertyDeclaration" := KProperty]>
       (<["MethodDeclaration" := KMethod]>
          (<["FieldDeclaration" := KField]>
             (<["EventFieldDeclaration" := KEvent]>
                (<["EnumMemberDeclaration" := KProperty]>
                   (<["VariableDeclaration" := KVariable]>
                      (<["StructDeclaration" := KEnum]>
                         (<["InterfaceDeclaration" := KInterface]>
                            (<["EnumDeclaration" := KEnum]>
                               (<["ClassDeclaration" := KClass]> ∅)))))))))).

Section Symbols.

(** [toRange] ([../omnisharp/typeConvertion]) is not among the sources; it
    is applied to the location and its result is stored. *)
Context {Range : Type} (toRange : QuickFix → Range).

(** [new SymbolInformation(name, kind, range, undefined, containerName)]. *)
Record SymbolInformation := {
  name : string;
  kind : option SymbolKind;
  range : Range;
  containerName : option string
}.

Fixpoint toDocumentSymbol (bucket : list SymbolInformation) (node : Node)
    (containerLabel : option string) : list SymbolInformation :=
  let ret :=
    {| name := Text (Location node); kind := _kinds !! Kind node;
       range := toRange (Location node); containerName := containerLabel |} in
  let bucket :=
    match ChildNodes node with
    | Some children =>
        fold_left (λ bucket child, toDocumentSymbol bucket child (Some (name ret)))
          children bucket
    | None => bucket
    end in
  bucket ++ [ret].

(** What [provideDocumentSymbols] does with the answer of the server. *)
Definition provideDocumentSymbols (TopLevelTypeDefinitions : list Node)
    : list SymbolInformation :=
  fold_left (λ ret node, toDocumentSymbol ret node None) TopLevelTypeDefinitions [].

End Symbols.

End DocumentSymbolProvider.

(** ** [OmniSharpCodeLensProvider]
    ([src/src/features/documentSymbolProvider.ts], second unit) *)

Module CodeLensProvider.
Import Protocol.

Section Lenses.

Context {Range : Type} (toRange : QuickFix → Range).

(** A lens is an [OmniSharpCodeLens], to be resolved later, or a
    [vscode.CodeLens] that carries its command. *)
Inductive CodeLens :=
| OmniSharpCodeLens (fileName : string) (range : Range)
| CommandLens (range : Range) (title command : string) (arguments : list string).

(** The own entries of [filteredSymbolNames]. *)
Definition filtered_names : list string :=
  ["Equals"; "Finalize"; "GetHashCode"; "ToString"].

(** [filteredSymbolNames] is an object literal, so a name it does not hold
    itself is looked up in [Object.prototype]; [inherited] tells whether
    that finds a truthy value. *)
Variable inherited : string → bool.

Definition filteredSymbolNames (name : string) : bool :=
  bool_decide (name ∈ filtered_names) || inherited name.

Definition is_test_feature (value : SyntaxFeature) : bool :=
  bool_decide (Name value = "XunitTestMethod")
  || bool_decide (Name value = "NUnitTestMethod")
  || bool_decide (Name value = "MSTestMethod").

Definition _updateCodeLensForTest (bucket : list CodeLens) (fileName : string)
    (node : Node) (isDebugEnable : bool) : list CodeLens :=
  match Features node with
  | None => bucket
  | Some features =>
      match List.find is_test_feature features with
      | Some testFeature =>
          let testFrameworkName :=
            if decide (Name testFeature = "NunitTestMethod") then "nunit"
            else if decide (Name testFeature = "MSTestMethod") then "mstest"
            else "xunit" in
          let bucket :=
            bucket ++ [CommandLens (toRange (Location node)) "run test" "dotnet.test.run"
                         [Data testFeature; fileName; testFrameworkName]] in
          if isDebugEnable then
            bucket ++ [CommandLens (toRange (Location node)) "debug test" "dotnet.test.debug"
                         [Data testFeature; fileName; testFrameworkName]]
          else bucket
      | None => bucket
      end
  end.

(** [this._server.isDebugEnable()]. *)
Variable isDebugEnable : bool.

(** [_convertQuickFix]; [None] is the [TypeError] of iterating over
    [ChildNodes] when it is missing. *)
Fixpoint _convertQuickFix (bucket : list CodeLens) (fileName : string) (node : Node)
    : option (list CodeLens) :=
  if bool_decide (Kind node = "MethodDeclaration")
     && filteredSymbolNames (Text (Location node))
  then Some bucket
  else
    let bucket := bucket ++ [OmniSharpCodeLens fileName (toRange (Location node))] in
    match ChildNodes node with
    | Some children =>
        match
          fold_left
            (λ bucket child,
               match bucket with
               | Some bucket => _convertQuickFix bucket fileName child
               | None => None
               end)
            children (Some bucket)
        with
        | Some bucket => Some (_updateCodeLensForTest bucket fileName node isDebugEnable)
        | None => None
        end
    | None => None
    end.

(** What [provideCodeLenses] does with the answer of the server. *)
Definition provideCodeLenses (fileName : string) (TopLevelTypeDefinitions : list Node)
    : option (list CodeLens) :=
  fold_left
    (λ ret node,
       match ret with
       | Some ret => _convertQuickFix ret fileName node
       | None => None
       end)
    TopLevelTypeDefinitions (Some []).

End Lenses.

End CodeLensProvider.

(** ** [OmniSharpHoverProvider]
    ([src/src/features/documentSymbolProvider.ts], last unit) *)

Module HoverProvider.

(** [s.replace(pattern, replacement)] for a string [pattern] and a
    [replacement] without [$]: the first occurrence is replaced. *)
(** What follows [pattern] when [s] starts with it. *)
Fixpoint after_prefix (pattern s : string) : option string :=
  match pattern, s with
  | EmptyString, _ => Some s
  | String a pattern, String b s =>
      if decide (a = b) then after_prefix pattern s else None
  | String _ _, EmptyString => None
  end.

Fixpoint replace (pattern replacement s : string) : string :=
  match after_prefix pattern s with
  | Some rest => replacement +:+ rest
  | None =>
      match s with
      | EmptyString => EmptyString
      | String c rest => String c (replace pattern replacement rest)
      end
  end.

Definition CRLF : string := String "013" (String "010" EmptyString).
Definition LFLF : string := String "010" (String "010" EmptyString).

Section Hover.

(** [String.prototype.trim] is taken as given. *)
Variable trim : string → string.

Definition adjustText (text : string) : string :=
  replace CRLF LFLF (trim text).

End Hover.

End HoverProvider.

(** * Notions used in the statements *)

(** The frame of ProcessLaunched with target process id 4242 (0x1092). *)
Definition frame_launched_4242 : list byte :=
  [x00; x00; x00; x00; x92; x10; x00; x00]%byte.

(** The frame of DebuggingStopped. *)
Definition frame_stopped : list byte := [x01; x00; x00; x00]%byte.


(** The warning of the ['error'] handler once the server is listening. *)
Definition communications_error (message : string) : string :=
  "Warning: Communications error on debugger event channel. " +:+ message.

(** The number of results that carry the outcome tag [tag]. *)
Definition count_outcome (tag : string) (results : list TestRunner.DotNetTestResult) : nat :=
  length (filter (λ r, TestRunner.Outcome r = tag) results).

(** A stub of the collaborators: files are saved, the run request
    answers with [results], nothing else answers. *)
Definition stub_run (results : list TestRunner.DotNetTestResult) : TestRunner.Environment :=
  {| TestRunner.saveAll := TestRunner.Resolved true;
     TestRunner.runTestAnswer := λ _, TestRunner.Resolved results;
     TestRunner.requestProjectInformation := λ _, TestRunner.Unanswered;
     TestRunner.getTestStartInfo := λ _, TestRunner.Unanswered;
     TestRunner.debugTestGetStartInfo := λ _, TestRunner.Unanswered;
     TestRunner.testMessages := λ _, [];
     TestRunner.unitTestDebugingOptions := TestRunner.NotAnObject;
     TestRunner.listenerStart := TestRunner.Unanswered;
     TestRunner.listenerPipePath := "pipe";
     TestRunner.startDebug := λ _, TestRunner.Unanswered |}.

Definition stub_outcomes : TestRunner.TestOutcomes :=
  {| TestRunner.Failed := "Failed"; TestRunner.Passed := "Passed";
     TestRunner.Skipped := "Skipped" |}.

Definition passed_and_failed : list TestRunner.DotNetTestResult :=
  [{| TestRunner.ResultMethodName := "MyTests.Should_Add"; TestRunner.Outcome := "Passed" |};
   {| TestRunner.ResultMethodName := "MyTests.Should_Add"; TestRunner.Outcome := "Failed" |}].

(** Totals with [p], [f] and [s] more passed, failed and skipped results. *)
Definition add_totals (t : TestRunner.Totals) (p f s : nat) : TestRunner.Totals :=
  {| TestRunner.totalPassed := TestRunner.totalPassed t + p;
     TestRunner.totalFailed := TestRunner.totalFailed t + f;
     TestRunner.totalSkipped := TestRunner.totalSkipped t + s |}.

(** A stub of the collaborators of [debugTest]: files are saved, the
    project metadata are [projectInfo], start info is available in both
    shapes, the listener starts and the front-end accepts the launch. *)
Definition stub_debug (projectInfo : TestRunner.WorkspaceInformationResponse)
    : TestRunner.Environment :=
  {| TestRunner.saveAll := TestRunner.Resolved true;
     TestRunner.runTestAnswer := λ _, TestRunner.Unanswered;
     TestRunner.requestProjectInformation := λ _, TestRunner.Resolved projectInfo;
     TestRunner.getTestStartInfo := λ _,
       TestRunner.Resolved
         {| TestRunner.GetTestStartInfoResponse.Executable := "dotnet";
            TestRunner.GetTestStartInfoResponse.Argument := "test";
            TestRunner.GetTestStartInfoResponse.WorkingDirectory := "/work" |};
     TestRunner.debugTestGetStartInfo := λ _,
       TestRunner.Resolved
         {| TestRunner.DebugTestGetStartInfoResponse.FileName := "dotnet";
            TestRunner.DebugTestGetStartInfoResponse.Arguments := "vstest";
            TestRunner.DebugTestGetStartInfoResponse.WorkingDirectory := "/work" |};
     TestRunner.testMessages := λ _, [];
     TestRunner.unitTestDebugingOptions := TestRunner.NotAnObject;
     TestRunner.listenerStart := TestRunner.Resolved ();
     TestRunner.listenerPipePath := "pipe";
     TestRunner.startDebug := λ _, TestRunner.Resolved () |}.

(** The message of the error [debugTest] throws for a project of neither kind. *)
Definition unsupported_project : string := "Expected project.json or .csproj project.".

(** ** Notions for the further properties *)

(** Kinds of effects of [TestRunner], and how often one occurs. *)
Definition is_subscribe (e : TestRunner.Effect) : bool :=
  match e with TestRunner.Subscribe => true | _ => false end.

Definition is_unsubscribe (e : TestRunner.Effect) : bool :=
  match e with TestRunner.Unsubscribe => true | _ => false end.

Definition occurrences (p : TestRunner.Effect → bool) (effects : list TestRunner.Effect) : nat :=
  length (List.filter p effects).

(** The request of the three arguments of [runTest] and [debugTest]. *)
Definition request_of (testMethod fileName testFrameworkName : string) : TestRunner.TestRequest :=
  {| TestRunner.FileName := fileName; TestRunner.MethodName := testMethod;
     TestRunner.TestFrameworkName := testFrameworkName |}.

(** The fields [_createLaunchConfiguration] writes. *)
Definition session_fields : list string :=
  ["name"; "type"; "request"; "debuggerEventsPipeName"; "program"; "args"; "cwd"].

(** A result whose tag is one of the three that are counted. *)
Definition counted (outcomes : TestRunner.TestOutcomes) (r : TestRunner.DotNetTestResult) : Prop :=
  TestRunner.Outcome r = TestRunner.Passed outcomes
  ∨ TestRunner.Outcome r = TestRunner.Failed outcomes
  ∨ TestRunner.Outcome r = TestRunner.Skipped outcomes.

(** Whether the start-info request of the variant [debugType] is answered
    with a response. *)
Definition start_info_resolved (env : TestRunner.Environment)
    (debugType : TestRunner.DebugType) (request : TestRunner.TestRequest) : bool :=
  match debugType with
  | TestRunner.legacy =>
      match TestRunner.getTestStartInfo env request with
      | TestRunner.Resolved _ => true
      | _ => false
      end
  | TestRunner.vstest =>
      match TestRunner.debugTestGetStartInfo env request with
      | TestRunner.Resolved _ => true
      | _ => false
      end
  end.

(** A stub whose start-info requests are rejected. *)
Definition stub_rejecting (projectInfo : TestRunner.WorkspaceInformationResponse)
    : TestRunner.Environment :=
  {| TestRunner.saveAll := TestRunner.Resolved true;
     TestRunner.runTestAnswer := λ _, TestRunner.Rejected (Js.Text "timeout");
     TestRunner.requestProjectInformation := λ _, TestRunner.Resolved projectInfo;
     TestRunner.getTestStartInfo := λ _, TestRunner.Rejected (Js.Text "timeout");
     TestRunner.debugTestGetStartInfo := λ _, TestRunner.Rejected (Js.Text "timeout");
     TestRunner.testMessages := λ _, ["Discovering tests"];
     TestRunner.unitTestDebugingOptions := TestRunner.NotAnObject;
     TestRunner.listenerStart := TestRunner.Resolved ();
     TestRunner.listenerPipePath := "pipe";
     TestRunner.startDebug := λ _, TestRunner.Resolved () |}.

(** A stub as [stub_debug], with the debug options [options]. *)
Definition stub_options (options : TestRunner.Setting)
    (projectInfo : TestRunner.WorkspaceInformationResponse) : TestRunner.Environment :=
  {| TestRunner.saveAll := TestRunner.saveAll (stub_debug projectInfo);
     TestRunner.runTestAnswer := TestRunner.runTestAnswer (stub_debug projectInfo);
     TestRunner.requestProjectInformation :=
       TestRunner.requestProjectInformation (stub_debug projectInfo);
     TestRunner.getTestStartInfo := TestRunner.getTestStartInfo (stub_debug projectInfo);
     TestRunner.debugTestGetStartInfo :=
       TestRunner.debugTestGetStartInfo (stub_debug projectInfo);
     TestRunner.testMessages := TestRunner.testMessages (stub_debug projectInfo);
     TestRunner.unitTestDebugingOptions := options;
     TestRunner.listenerStart := TestRunner.listenerStart (stub_debug projectInfo);
     TestRunner.listenerPipePath := TestRunner.listenerPipePath (stub_debug projectInfo);
     TestRunner.startDebug := TestRunner.startDebug (stub_debug projectInfo) |}.

Definition msbuild_only : TestRunner.WorkspaceInformationResponse :=
  {| TestRunner.DotNetProject := None;
     TestRunner.MsBuildProject := Some {| TestRunner.Path := "Calc.csproj" |} |}.

Definition dotnet_only : TestRunner.WorkspaceInformationResponse :=
  {| TestRunner.DotNetProject := Some {| TestRunner.Path := "project.json" |};
     TestRunner.MsBuildProject := None |}.

(** A record of [_startListening] whose promise and [isStarted] agree:
    not fulfilled while not started, not pending once started. *)
Definition listen_ok (lc : DebugEventListener.Listen) : Prop :=
  match DebugEventListener.isStarted lc, DebugEventListener.l_promise lc with
  | false, Js.Done Js.Fulfilled => False
  | true, Js.Pending => False
  | _, _ => True
  end.

(** The instance [i] exists and has created its server. *)
Definition has_server (heap : list DebugEventListener.Instance) (i : nat) : Prop :=
  ∃ o, heap !! i = Some o ∧ is_Some (DebugEventListener._serverSocket o).

(** The slot is empty or holds an instance that has created its server. *)
Definition slot_ok (w : DebugEventListener.World) : Prop :=
  match DebugEventListener.s_activeInstance w with
  | Some i => has_server (DebugEventListener.heap w) i
  | None => True
  end.

(** A waiting callback of [server.close] whose [start], if it has one, is
    the [start] of one of the first [size] instances. *)
Definition cont_ok (size : nat) (cb : DebugEventListener.CloseCallback) : Prop :=
  match DebugEventListener.cc_cont cb with
  | DebugEventListener.StartOf j => j < size
  | _ => True
  end.

Definition channel_inv (w : DebugEventListener.World) : Prop :=
  slot_ok w
  ∧ Forall (cont_ok (length (DebugEventListener.heap w))) (DebugEventListener.pendingClose w).



(** Earlier revision: a listener for Calc.cs that has been started, and
    two listeners of which the first has been started. *)
Definition sync_started : DebugEventListenerSync.World :=
  DebugEventListenerSync.start 0
    (DebugEventListenerSync.new "Calc.cs" "pipe" DebugEventListenerSync.initial).

Definition sync_two : DebugEventListenerSync.World :=
  DebugEventListenerSync.start 0
    (DebugEventListenerSync.new "Other.cs" "pipe"
       (DebugEventListenerSync.new "Calc.cs" "pipe" DebugEventListenerSync.initial)).

(** The children of a node; none when [ChildNodes] is missing. *)
Definition children_of (node : Protocol.Node) : list Protocol.Node :=
  default [] (Protocol.ChildNodes node).

(** The number of nodes of a tree. *)
Fixpoint tree_size (node : Protocol.Node) : nat :=
  S (match Protocol.ChildNodes node with
     | Some children => fold_right (λ child n, tree_size child + n) 0 children
     | None => 0
     end).

(** The symbol [toDocumentSymbol] makes of the node itself. *)
Definition own_symbol {Range : Type} (toRange : Protocol.QuickFix → Range)
    (node : Protocol.Node) (containerLabel : option string)
    : DocumentSymbolProvider.SymbolInformation (Range := Range) :=
  {| DocumentSymbolProvider.name := Protocol.Text (Protocol.Location node);
     DocumentSymbolProvider.kind :=
       DocumentSymbolProvider._kinds !! Protocol.Kind node;
     DocumentSymbolProvider.range := toRange (Protocol.Location node);
     DocumentSymbolProvider.containerName := containerLabel |}.

Definition has_no_container {Range : Type}
    (s : DocumentSymbolProvider.SymbolInformation (Range := Range)) : bool :=
  match DocumentSymbolProvider.containerName s with
  | None => true
  | Some _ => false
  end.

(** The first test feature of a node, if it has one. *)
Definition test_feature_of (node : Protocol.Node) : option Protocol.SyntaxFeature :=
  match Protocol.Features node with
  | Some features => List.find CodeLensProvider.is_test_feature features
  | None => None
  end.

(** A method declaration with one of the four names of [filteredSymbolNames]. *)
Definition filtered_method (node : Protocol.Node) : Prop :=
  Protocol.Kind node = "MethodDeclaration"
  ∧ Protocol.Text (Protocol.Location node) ∈ CodeLensProvider.filtered_names.

(** One round of the loops over nodes in the code-lens provider; an
    exception of an earlier round ends them. *)
Definition convert_next {Range : Type} (toRange : Protocol.QuickFix → Range)
    (inherited : string → bool) (isDebugEnable : bool) (fileName : string)
    (bucket : option (list (CodeLensProvider.CodeLens (Range := Range))))
    (child : Protocol.Node) : option (list CodeLensProvider.CodeLens) :=
  match bucket with
  | Some bucket =>
      CodeLensProvider._convertQuickFix toRange inherited isDebugEnable bucket fileName child
  | None => None
  end.

(** Whether [pattern] occurs in [s]. *)
Fixpoint occurs (pattern s : string) : bool :=
  match HoverProvider.after_prefix pattern s with
  | Some _ => true
  | None =>
      match s with
      | EmptyString => false
      | String _ rest => occurs pattern rest
      end
  end.

(** For the examples: a location with the text [text], a method
    declaration of that name without children, a range that is the
    location itself, a lookup in [Object.prototype] that finds none of
    the names of the examples, and [trim] on a text that neither starts
    nor ends with white space. *)
Definition location_of (text : string) : Protocol.QuickFix :=
  {| Protocol.Text := text; Protocol.Coordinates := [1; 1; 1; 1]%Z |}.

Definition method_named (text : string) : Protocol.Node :=
  Protocol.mkNode (location_of text) "MethodDeclaration" (Some []) None.

Definition range_is_location (location : Protocol.QuickFix) : Protocol.QuickFix := location.

Definition nothing_inherited (name : string) : bool := false.

Definition already_trimmed (text : string) : string := text.

(** For the examples: user options that set [justMyCode] and a name of
    their own. *)
Definition user_options : gmap string TestRunner.Json :=
  <["justMyCode" := TestRunner.JRaw "false"]>
    (<["name" := TestRunner.JString "mine"]> ∅).

(** * Properties *)

(** Splits a hypothesis [x ∈ l], for a list [l] built from [::], [++] and
    [map], into its cases and closes those where the constructors differ. *)
Ltac elem_cases H :=
  repeat first
    [ apply elem_of_nil in H; destruct H
    | apply elem_of_cons in H as [H|H]; [try discriminate H|]
    | apply elem_of_app in H as [H|H]
    | apply list_elem_of_fmap in H as (? & H & _); try discriminate H ].

(** The four facts of C10 that do not mention the configuration. *)
Ltac legacy_facts :=
  split; [intros ? H; elem_cases H|];
  split; [intros H; elem_cases H|];
  split; [do 6 apply list_elem_of_further; apply list_elem_of_here|];
  split; [intros ? H; elem_cases H|].

Example decode_launched_4242 :
  DebuggerEventsProtocol.decodePacket frame_launched_4242
  = inl (DebuggerEventsProtocol.ProcessLaunchedEvent 4242).
Proof. reflexivity. Qed.

Example decode_stopped :
  DebuggerEventsProtocol.decodePacket frame_stopped
  = inl DebuggerEventsProtocol.DebuggingStoppedEvent.
Proof. reflexivity. Qed.

(** ** The socket handlers keep no buffer *)

Section Chunks.
Import DebuggerEventsProtocol.

Variable decode : list byte → DebuggerEvent + DecodeError.








End Chunks.



(** ** Stopping and closing, event-bus revision *)

(** C2 at its failing input.  One callback (7) is registered with
    [onDebuggingStopped]; the channel is started and listening; a
    DebuggingStopped frame arrives and then the connection ends.  Both
    handlers run with [this] the server and end in a [TypeError], the
    first at the logger, the second at [_onDebuggingStopped]: the
    callback is not called at all, the server is not closed and the
    channel stays open. *)
Theorem stop_then_end_notifies_nobody :
  let w :=
    DebugEventListener.run DebuggerEventsProtocol.decodePacket
      (DebugEventListener.initial true)
      [DebugEventListener.New "pipe";
       DebugEventListener.OnDebuggingStopped 0 7;
       DebugEventListener.Start 0;
       DebugEventListener.Listening 0;
       DebugEventListener.Data 0 0 frame_stopped;
       DebugEventListener.End_ 0 0] in
  (∃ first second,
     DebugEventListener.trace w
     = [DebugEventListener.ServerListen 0 "pipe";
        DebugEventListener.StartSettled 0 Js.Fulfilled;
        DebugEventListener.Threw (Js.TypeError first);
        DebugEventListener.Threw (Js.TypeError second)])
  ∧ (∀ args, DebugEventListener.Called 7 args ∉ DebugEventListener.trace w)
  ∧ EventEmitter.listeners DebuggerEventsProtocol.DebuggingStopped
      <$> (DebugEventListener._eventBus <$> DebugEventListener.heap w !! 0)
    = Some [7]
  ∧ DebugEventListener._isClosed <$> DebugEventListener.heap w !! 0 = Some false.
Proof.
  split; [by eexists _, _|]. split; [|split; reflexivity].
  intros args H. vm_compute in H. elem_cases H.
Qed.

(** C3 at its failing input.  Channel 0 is started and listening and
    holds the slot; [start] is called on channel 1, which closes channel
    0; the server of channel 0 closes and its callback runs without an
    error.  The promise of that [close] is rejected, the steps of
    [start] chained on it are skipped: the slot stays empty, channel 1
    has no server and its [start] is rejected with [undefined]. *)
Theorem second_start_leaves_slot_empty :
  let w :=
    DebugEventListener.run DebuggerEventsProtocol.decodePacket
      (DebugEventListener.initial true)
      [DebugEventListener.New "pipe";
       DebugEventListener.Start 0;
       DebugEventListener.Listening 0;
       DebugEventListener.New "pipe";
       DebugEventListener.Start 1;
       DebugEventListener.ServerClosed 0 None] in
  DebugEventListener.s_activeInstance w = None
  ∧ DebugEventListener._serverSocket <$> DebugEventListener.heap w !! 1 = Some None
  ∧ DebugEventListener.trace w
    = [DebugEventListener.ServerListen 0 "pipe";
       DebugEventListener.StartSettled 0 Js.Fulfilled;
       DebugEventListener.ServerClose 0;
       DebugEventListener.StartSettled 1 (Js.Rejected Js.Undefined)].
Proof. repeat split; reflexivity. Qed.

(** C4 at its failing input.  A channel is started and listening;
    [close()] is called and the server closes without an error.  The
    promise [close()] returned is rejected.  A later [close()] finds
    [_isClosed] set and is fulfilled at once. *)
Theorem close_rejects_when_server_closes :
  let w :=
    DebugEventListener.run DebuggerEventsProtocol.decodePacket
      (DebugEventListener.initial true)
      [DebugEventListener.New "pipe";
       DebugEventListener.Start 0;
       DebugEventListener.Listening 0;
       DebugEventListener.Close 0;
       DebugEventListener.ServerClosed 0 None;
       DebugEventListener.Close 0] in
  DebugEventListener.trace w
  = [DebugEventListener.ServerListen 0 "pipe";
     DebugEventListener.StartSettled 0 Js.Fulfilled;
     DebugEventListener.ServerClose 0;
     DebugEventListener.CloseSettled 0 (Js.Rejected Js.Undefined);
     DebugEventListener.CloseSettled 0 Js.Fulfilled].
Proof. reflexivity. Qed.

(** C6 at its failing input.  Two callbacks are registered with
    [onProcessLaunched], 7 before 8, and the channel holds them in that
    order; the frame of ProcessLaunched(4242) arrives.  The handler ends
    in a [TypeError] at the logger, before [_fireEvent]: neither
    callback is called, with the number 4242 or with anything else. *)
Theorem processLaunched_listener_not_called :
  let w :=
    DebugEventListener.run DebuggerEventsProtocol.decodePacket
      (DebugEventListener.initial true)
      [DebugEventListener.New "pipe";
       DebugEventListener.OnProcessLaunched 0 7;
       DebugEventListener.OnProcessLaunched 0 8;
       DebugEventListener.Start 0;
       DebugEventListener.Listening 0;
       DebugEventListener.Data 0 0 frame_launched_4242] in
  EventEmitter.listeners DebuggerEventsProtocol.ProcessLaunched
    <$> (DebugEventListener._eventBus <$> DebugEventListener.heap w !! 0)
  = Some [7; 8]
  ∧ (∃ message,
       DebugEventListener.trace w
       = [DebugEventListener.ServerListen 0 "pipe";
          DebugEventListener.StartSettled 0 Js.Fulfilled;
          DebugEventListener.Threw (Js.TypeError message)])
  ∧ (∀ l args, DebugEventListener.Called l args ∉ DebugEventListener.trace w).
Proof.
  split; [reflexivity|]. split; [by eexists|].
  intros l args H. vm_compute in H. elem_cases H.
Qed.

(** ** What holds of stopping and closing in the event-bus revision *)

Section Closing.
Import DebuggerEventsProtocol DebugEventListener.

Variable decode : list byte → DebuggerEvent + DecodeError.

(** Once the callback of [server.close] has set [_isClosed],
    [_onDebuggingStopped] called on the instance does nothing. *)
Lemma stopped_guard_when_closed this o w :
  heap w !! this = Some o →
  _isClosed o = true →
  _onDebuggingStopped this w = w.
Proof. intros Ho Hc. unfold _onDebuggingStopped. by rewrite Ho, Hc. Qed.

(** Until then the guard is open.  Called twice on an instance that is
    open, [_onDebuggingStopped] notifies the callbacks twice and closes
    the server twice: [close] raises [_isClosed] only in the callback of
    [server.close].  (The socket handlers as [start] installs them do
    not get to make these calls.) *)
Lemma stop_twice_on_open_instance this o s w :
  heap w !! this = Some o →
  _isClosed o = false →
  _serverSocket o = Some s →
  let calls :=
    map (λ l, Called l [Js.Array []])
      (EventEmitter.listeners DebuggingStopped (_eventBus o)) in
  trace (_onDebuggingStopped this (_onDebuggingStopped this w))
  = trace w ++ calls ++ [ServerClose s] ++ calls ++ [ServerClose s].
Proof.
  intros Ho Hc Hs calls.
  assert (∀ w', heap w' !! this = Some o →
            trace (_onDebuggingStopped this w') = trace w' ++ calls ++ [ServerClose s]
            ∧ heap (_onDebuggingStopped this w') = heap w') as Hstop.
  { intros w' Hw'. unfold _onDebuggingStopped, _fireEvent, close.
    rewrite Hw', Hc. simpl. rewrite Hw', Hc, Hs.
    case_decide; simpl; by rewrite <- app_assoc. }
  destruct (Hstop w Ho) as [Ht Hh].
  destruct (Hstop _ (eq_trans (f_equal (λ h, h !! this) Hh) Ho)) as [Ht' _].
  rewrite Ht', Ht. by rewrite <- !app_assoc.
Qed.

(** With the slot empty, [start] takes it within the call. *)
Lemma start_takes_empty_slot this o w :
  heap w !! this = Some o →
  s_activeInstance w = None →
  s_activeInstance (start this w) = Some this.
Proof.
  intros Ho Hslot. unfold start, _clearActiveInstance, start_then,
    _removeSocketFileIfExists, _startListening.
  rewrite Ho, Hslot. by repeat case_match.
Qed.

(** With the slot taken, the second [start] goes on only when the
    callback of [server.close] reports an error: here the server of
    channel 0 never got to listen, so it was not open when it was closed. *)
Example second_start_after_close_error :
  let w :=
    run DebuggerEventsProtocol.decodePacket (initial true)
      [New "pipe"; Start 0; ServerError 0 "listen EADDRINUSE";
       New "pipe"; Start 1; ServerClosed 0 (Some "Not running")] in
  s_activeInstance w = Some 1
  ∧ _serverSocket <$> heap w !! 1 = Some (Some 1)
  ∧ trace w
    = [ServerListen 0 "pipe";
       StartSettled 0 (Js.Rejected (Js.Text "listen EADDRINUSE"));
       ServerClose 0; ServerListen 1 "pipe"].
Proof. repeat split; reflexivity. Qed.

(** [close()] itself calls no callback of a client, whoever consumes its
    promise. *)
Lemma close_calls_no_listener this k w l args :
  Called l args ∈ trace (close this k w) → Called l args ∈ trace w.
Proof.
  unfold close, settled, start_then, _removeSocketFileIfExists, _startListening.
  repeat case_match; simpl; intros Hin; try done;
    apply elem_of_app in Hin as [Hin|Hin]; try done; elem_cases Hin.
Qed.

End Closing.

(** ** Registration order and disposal *)

Section Bus.
Import DebuggerEventsProtocol EventEmitter.

(** A callback added last is called last. *)
Lemma listeners_addListener event event' l (bus : EventEmitter.t) :
  listeners event (addListener event' l bus)
  = listeners event bus ++ (if decide (event' = event) then [l] else []).
Proof.
  unfold listeners, addListener.
  rewrite filter_app, map_app. f_equal.
  rewrite filter_cons, filter_nil. simpl. by case_decide.
Qed.

Lemma remove_first_absent r (bus : EventEmitter.t) :
  r ∉ bus → remove_first r bus = bus.
Proof.
  induction bus as [|x bus IH]; simpl; [done|].
  intros [Hx Hbus]%not_elem_of_cons.
  case_decide; [congruence|]. by rewrite IH.
Qed.

Lemma remove_first_app r (before after : EventEmitter.t) :
  r ∉ before → remove_first r (before ++ r :: after) = before ++ after.
Proof.
  induction before as [|x before IH]; simpl.
  - intros _. by case_decide.
  - intros [Hx Hbefore]%not_elem_of_cons.
    case_decide; [congruence|]. by rewrite IH.
Qed.

(** Disposal removes one registration of the callback, the latest, and
    leaves every other registration in place; without a registration it
    does nothing. *)
Lemma listeners_removeListener event l (before after : EventEmitter.t) :
  (event, l) ∉ after →
  removeListener event l (before ++ (event, l) :: after) = before ++ after.
Proof.
  intros Hafter. unfold removeListener.
  rewrite rev_app_distr. simpl. rewrite <- app_assoc. simpl.
  rewrite remove_first_app.
  - by rewrite rev_app_distr, !rev_involutive.
  - intros H. apply Hafter.
    apply list_elem_of_In, in_rev. by apply list_elem_of_In.
Qed.

Lemma removeListener_absent event l (bus : EventEmitter.t) :
  (event, l) ∉ bus → removeListener event l bus = bus.
Proof.
  intros Hbus. unfold removeListener.
  rewrite remove_first_absent; [apply rev_involutive|].
  intros H. apply Hbus.
  apply list_elem_of_In, in_rev. by apply list_elem_of_In.
Qed.

(** [_fireEvent] called on an instance: every callback registered for
    the event, in the order of registration, each with one argument,
    the array of the arguments [_fireEvent] was given. *)
Lemma _fireEvent_passes_array this o event args w :
  DebugEventListener.heap w !! this = Some o →
  DebugEventListener._fireEvent this event args w
  = DebugEventListener.observe
      (map (λ l, DebugEventListener.Called l [Js.Array args])
         (listeners event (DebugEventListener._eventBus o))) w.
Proof. intros Ho. unfold DebugEventListener._fireEvent. by rewrite Ho. Qed.

End Bus.

(** ** Stopping and closing, earlier revision *)

Section Sync.
Import DebuggerEventsProtocol DebugEventListenerSync.

Variable decode : list byte → DebuggerEvent + DecodeError.

Lemma sync_close_closed this o w :
  heap w !! this = Some o →
  _isClosed o = true →
  s_activeInstance w ≠ Some this →
  close this w = w.
Proof. intros Ho Hc Hs. unfold close. rewrite Ho, Hc. by case_decide. Qed.

(** X16.  There [close()] is idempotent: it raises [_isClosed] at once. *)
Lemma sync_close_twice this w : close this (close this w) = close this w.
Proof.
  destruct (heap w !! this) as [o|] eqn:Ho.
  2: { unfold close. rewrite Ho. simpl. by rewrite ?Ho. }
  assert (∃ o', heap (close this w) !! this = Some o' ∧ _isClosed o' = true)
    as (o' & Ho' & Hc').
  { unfold close. rewrite Ho.
    destruct (_isClosed o) eqn:Hc; [|destruct (_serverSocket o)];
      case_decide; simpl; rewrite ?list_lookup_alter_eq, Ho; simpl; eauto. }
  apply (sync_close_closed _ o'); [done..|].
  unfold close. rewrite Ho.
  destruct (_isClosed o); [|destruct (_serverSocket o)];
    case_decide; simpl; congruence.
Qed.

(** X17.  There an explicit DebuggingStopped followed by the end of the
    connection sends one stop request and closes the server once. *)
Lemma sync_stop_then_end_once this o s chunk w :
  heap w !! this = Some o →
  _isClosed o = false →
  _serverSocket o = Some s →
  decode chunk = inl DebuggingStoppedEvent →
  trace (onEnd this (onData decode this chunk w))
  = trace w ++ [Logged "Debugging complete."; Logged EmptyString;
                DebugTestStop (_fileName o); ServerClose s].
Proof.
  intros Ho Hc Hs Hd. unfold onEnd, onData. rewrite Hd.
  unfold onDebuggingStopped at 2. simpl. rewrite Ho, Hc.
  unfold close. simpl. rewrite Ho, Hc, Hs.
  assert (∀ w', heap w' !! this = Some (with_isClosed true o) →
            onDebuggingStopped this w' = w') as Hguard.
  { intros w' Hw'. unfold onDebuggingStopped. by rewrite Hw'. }
  rewrite Hguard.
  - case_decide; simpl; by rewrite <- !app_assoc.
  - case_decide; simpl; by rewrite list_lookup_alter_eq, Ho.
Qed.

(** X18.  There a second [start] closes the holder of the slot and takes the
    slot at once. *)
Lemma sync_second_start_takes_slot first second o1 o2 w :
  first ≠ second →
  s_activeInstance w = Some first →
  heap w !! first = Some o1 →
  heap w !! second = Some o2 →
  s_activeInstance (start second w) = Some second
  ∧ _isClosed <$> heap (start second w) !! first = Some true.
Proof.
  intros Hne Hslot H1 H2. unfold start. rewrite H2, Hslot. simpl.
  split; [done|].
  rewrite list_lookup_alter_ne by done.
  unfold close. rewrite H1, Hslot. case_decide; [|done]. simpl.
  destruct (_isClosed o1) eqn:Hc.
  - simpl. by rewrite H1, <- Hc.
  - destruct (_serverSocket o1); simpl; by rewrite list_lookup_alter_eq, H1.
Qed.

End Sync.

(** ** Failures of the server while and after [start] *)

Section Listening.
Import DebuggerEventsProtocol DebugEventListener.

Variable decode : list byte → DebuggerEvent + DecodeError.

(** Every [start] that gets as far as [_startListening] adds a record that
    is not started and whose promise is pending. *)
Lemma _startListening_fresh this o s w :
  heap w !! this = Some o →
  _serverSocket o = Some s →
  listens (_startListening this w) !! length (listens w)
  = Some {| l_server := s; l_start := this;
            isStarted := false; l_promise := Js.Pending |}.
Proof.
  intros Ho Hs. unfold _startListening. rewrite Ho, Hs. simpl.
  by rewrite lookup_app_r, Nat.sub_diag.
Qed.

(** With the slot empty and on win32, [start] gets there within the
    call. *)
Lemma start_listens this o w :
  heap w !! this = Some o →
  s_activeInstance w = None →
  win32 w = true →
  listens (start this w) !! length (listens w)
  = Some {| l_server := nextServer w; l_start := this;
            isStarted := false; l_promise := Js.Pending |}.
Proof.
  intros Ho Hslot Hwin. unfold start. rewrite Ho.
  unfold _clearActiveInstance. rewrite Hslot.
  unfold start_then, _removeSocketFileIfExists.
  cbn [win32 update set_heap set_nextServer set_slot]. rewrite Hwin.
  match goal with
  | |- listens (_startListening _ ?w') !! _ = _ =>
      apply (_startListening_fresh this
               (with_serverSocket (nextServer w) o) (nextServer w) w')
  end.
  - simpl. by rewrite list_lookup_alter_eq, Ho.
  - done.
Qed.

(** "Started" is reached in the callback of [listen], which also
    resolves the promise. *)
Lemma onListening_started c lc w :
  listens w !! c = Some lc →
  listens (onListening c w) !! c
  = Some (with_promise (Js.settle Js.Fulfilled (l_promise lc)) (with_isStarted true lc)).
Proof.
  intros Hc. unfold onListening. rewrite Hc. simpl.
  apply list_lookup_insert_eq. by eapply lookup_lt_Some.
Qed.

(** C8.  Let [lc] be the record of a call of [_startListening], that is,
    of a [start] that has reached [listen], and let the server report an
    error with message [message].  Before "started" ([isStarted] still
    false) the promise of [start] is rejected with [message] (when an
    earlier error has rejected it already, nothing changes).  After
    "started" the only effect is the warning line: the promise is not
    touched and nothing is reported to the caller. *)
Theorem server_error_before_and_after_started w c lc message :
  listens w !! c = Some lc →
  let w' := step decode w (ServerError c message) in
  match isStarted lc, l_promise lc with
  | false, Js.Pending =>
      listens w' !! c
      = Some (with_promise (Js.Done (Js.Rejected (Js.Text message))) lc)
      ∧ trace w'
        = trace w ++ [StartSettled (l_start lc) (Js.Rejected (Js.Text message))]
  | false, Js.Done _ => w' = w
  | true, _ =>
      listens w' = listens w
      ∧ trace w' = trace w ++ [Logged (communications_error message)]
  end.
Proof.
  intros Hc. simpl. unfold onServerError. rewrite Hc.
  destruct lc as [s j started p]. destruct started; simpl.
  - by split.
  - destruct p as [|r]; simpl.
    + split; [|done]. apply list_lookup_insert_eq. by eapply lookup_lt_Some.
    + rewrite list_insert_id by done. destruct w; simpl.
      unfold observe, set_listens; simpl. by rewrite app_nil_r.
Qed.

End Listening.

(** A channel whose [listen] has not answered yet when the server reports
    that the address is in use. *)
Lemma server_error_before_and_after_started_witness :
  let w :=
    DebugEventListener.run DebuggerEventsProtocol.decodePacket
      (DebugEventListener.initial true)
      [DebugEventListener.New "pipe"; DebugEventListener.Start 0] in
  let w' :=
    DebugEventListener.step DebuggerEventsProtocol.decodePacket w
      (DebugEventListener.ServerError 0 "listen EADDRINUSE") in
  DebugEventListener.listens w' !! 0
  = Some {| DebugEventListener.l_server := 0; DebugEventListener.l_start := 0;
            DebugEventListener.isStarted := false;
            DebugEventListener.l_promise :=
              Js.Done (Js.Rejected (Js.Text "listen EADDRINUSE")) |}
  ∧ DebugEventListener.trace w'
    = DebugEventListener.trace w
      ++ [DebugEventListener.StartSettled 0 (Js.Rejected (Js.Text "listen EADDRINUSE"))].
Proof.
  apply (server_error_before_and_after_started DebuggerEventsProtocol.decodePacket
           (DebugEventListener.run DebuggerEventsProtocol.decodePacket
              (DebugEventListener.initial true)
              [DebugEventListener.New "pipe"; DebugEventListener.Start 0])
           0
           {| DebugEventListener.l_server := 0; DebugEventListener.l_start := 0;
              DebugEventListener.isStarted := false;
              DebugEventListener.l_promise := Js.Pending |}
           "listen EADDRINUSE").
  reflexivity.
Defined.

(** The same error once the channel is listening: a warning, and the
    promise of [start] stays fulfilled. *)
Example server_error_after_started :
  let w :=
    DebugEventListener.run DebuggerEventsProtocol.decodePacket
      (DebugEventListener.initial true)
      [DebugEventListener.New "pipe"; DebugEventListener.Start 0;
       DebugEventListener.Listening 0;
       DebugEventListener.ServerError 0 "read ECONNRESET"] in
  DebugEventListener.trace w
  = [DebugEventListener.ServerListen 0 "pipe";
     DebugEventListener.StartSettled 0 Js.Fulfilled;
     DebugEventListener.Logged
       "Warning: Communications error on debugger event channel. read ECONNRESET"]
  ∧ DebugEventListener.l_promise <$> DebugEventListener.listens w !! 0
    = Some (Js.Done Js.Fulfilled).
Proof. split; reflexivity. Qed.

(** ** The summary of a test run *)

Section Summary.
Import TestRunner.

Lemma prefix_app (needle rest : string) : String.prefix needle (needle +:+ rest) = true.
Proof.
  induction needle as [|a needle IH]; simpl; [by destruct rest|].
  destruct (Ascii.ascii_dec a a); [done|congruence].
Qed.

Lemma includes_prefix (needle hay : string) :
  String.prefix needle hay = true → includes needle hay = true.
Proof. intros H. destruct hay; cbn [includes]; by rewrite H. Qed.

Lemma includes_here (needle rest : string) : includes needle (needle +:+ rest) = true.
Proof. apply includes_prefix, prefix_app. Qed.

Lemma includes_app_r (needle pre hay : string) :
  includes needle hay = true → includes needle (pre +:+ hay) = true.
Proof.
  intros H. induction pre as [|a pre IH]; simpl; [done|].
  rewrite IH. apply orb_true_r.
Qed.

Lemma append_assoc (a b c : string) : (a +:+ b) +:+ c = a +:+ (b +:+ c).
Proof.
  induction a as [|x a IH]; [done|].
  change (String x ((a +:+ b) +:+ c) = String x (a +:+ (b +:+ c))).
  by rewrite IH.
Qed.

Lemma output_app (a b : list Effect) : output (a ++ b) = output a +:+ output b.
Proof.
  induction a as [|e a IH]; simpl; [done|].
  destruct e; simpl; try done. rewrite IH.
  by rewrite append_assoc.
Qed.

(** A logged line is part of the text of the channel. *)
Lemma logged_line_in_output (line : string) (effects : list Effect) :
  Log line ∈ effects → includes line (output effects) = true.
Proof.
  intros H. apply list_elem_of_split in H as (pre & post & ->).
  rewrite output_app. apply includes_app_r. simpl.
  apply includes_here.
Qed.

Variable outcomes : TestOutcomes.

Lemma Totals_eq (a b : Totals) :
  totalPassed a = totalPassed b → totalFailed a = totalFailed b →
  totalSkipped a = totalSkipped b → a = b.
Proof. destruct a, b; simpl; congruence. Qed.

Lemma count_outcome_cons tag r results :
  count_outcome tag (r :: results)
  = (if decide (Outcome r = tag) then 1 else 0) + count_outcome tag results.
Proof.
  unfold count_outcome. rewrite filter_cons. by case_decide.
Qed.

(** The loop of [_reportResults] counts, for each of the three tags, the
    results that carry it. *)
Lemma fold_tally results t :
  Passed outcomes ≠ Failed outcomes →
  Passed outcomes ≠ Skipped outcomes →
  Failed outcomes ≠ Skipped outcomes →
  fold_left (tally outcomes) results t
  = add_totals t (count_outcome (Passed outcomes) results)
      (count_outcome (Failed outcomes) results)
      (count_outcome (Skipped outcomes) results).
Proof.
  intros Hpf Hps Hfs. revert t.
  induction results as [|r results IH]; intros t; simpl.
  - apply Totals_eq; simpl; unfold count_outcome; simpl; lia.
  - rewrite IH, !count_outcome_cons. unfold tally.
    apply Totals_eq; simpl; repeat case_decide; simpl; try lia; congruence.
Qed.

(** C5, as the code has it.  When the files are saved and the run request
    answers with [results], [runTest] logs the line

      Total tests: T. Passed: P. Failed: F. Skipped: S

    where T is the length of [results] and P, F, S are the numbers of
    results tagged Passed, Failed, Skipped; the line ends with the last
    count.  The text of the output channel includes it. *)
Theorem runTest_reports_totals env testMethod fileName testFrameworkName saved results :
  Passed outcomes ≠ Failed outcomes →
  Passed outcomes ≠ Skipped outcomes →
  Failed outcomes ≠ Skipped outcomes →
  saveAll env = Resolved saved →
  runTestAnswer env
    {| FileName := fileName; MethodName := testMethod;
       TestFrameworkName := testFrameworkName |} = Resolved results →
  let line :=
    "Total tests: " +:+ pretty (length results) +:+
    ". Passed: " +:+ pretty (count_outcome (Passed outcomes) results) +:+
    ". Failed: " +:+ pretty (count_outcome (Failed outcomes) results) +:+
    ". Skipped: " +:+ pretty (count_outcome (Skipped outcomes) results) in
  let effects := fst (runTest outcomes env testMethod fileName testFrameworkName) in
  Log line ∈ effects ∧ includes line (output effects) = true.
Proof.
  intros Hpf Hps Hfs Hsave Hrun line effects.
  assert (Log line ∈ effects) as Hin.
  { subst effects line. unfold runTest. rewrite Hsave, Hrun. simpl.
    unfold totals. rewrite fold_tally by done. unfold summary; simpl.
    do 6 apply list_elem_of_further.
    apply elem_of_app. right. apply list_elem_of_further, list_elem_of_here. }
  split; [done|]. by apply logged_line_in_output.
Qed.

(** The total is the length of the list, and a result whose tag is none
    of the three takes part in no count. *)
Lemma tally_sum_le results t :
  let t' := fold_left (tally outcomes) results t in
  totalPassed t' + totalFailed t' + totalSkipped t'
  ≤ totalPassed t + totalFailed t + totalSkipped t + length results.
Proof.
  revert t. induction results as [|r results IH]; intros t; simpl; [lia|].
  specialize (IH (tally outcomes t r)). simpl in IH.
  unfold tally in *. repeat case_decide; simpl in *; lia.
Qed.

Lemma tally_sum_lt results t r :
  r ∈ results →
  Outcome r ≠ Passed outcomes → Outcome r ≠ Failed outcomes →
  Outcome r ≠ Skipped outcomes →
  let t' := fold_left (tally outcomes) results t in
  totalPassed t' + totalFailed t' + totalSkipped t'
  < totalPassed t + totalFailed t + totalSkipped t + length results.
Proof.
  intros Hin Hp Hf Hs. revert t.
  induction results as [|x results IH]; intros t; simpl.
  - by apply elem_of_nil in Hin.
  - apply elem_of_cons in Hin as [->|Hin].
    + pose proof (tally_sum_le results (tally outcomes t x)) as Hle. simpl in Hle.
      unfold tally in *. repeat case_decide; simpl in *; try congruence; lia.
    + specialize (IH Hin (tally outcomes t x)). simpl in IH.
      unfold tally in *. repeat case_decide; simpl in *; lia.
Qed.

(** C9.  If some result of the list carries a tag that is none of Passed,
    Failed and Skipped, then the reported total is still the length of
    the list, that result changes none of the three counters, and the
    three reported counts add up to less than the reported total. *)
Theorem unknown_outcome_only_in_total results r :
  r ∈ results →
  Outcome r ≠ Passed outcomes →
  Outcome r ≠ Failed outcomes →
  Outcome r ≠ Skipped outcomes →
  let t := totals outcomes results in
  _reportResults outcomes results
  = [Log EmptyString; Log (summary (length results) t); Log EmptyString]
  ∧ (∀ t0, tally outcomes t0 r = t0)
  ∧ totalPassed t + totalFailed t + totalSkipped t < length results.
Proof.
  intros Hin Hp Hf Hs t. split; [done|]. split.
  - intros t0. unfold tally. by repeat case_decide.
  - pose proof (tally_sum_lt results
      {| totalPassed := 0; totalFailed := 0; totalSkipped := 0 |} r Hin Hp Hf Hs) as H.
    simpl in H. exact H.
Qed.

End Summary.

(** The scenario of the specification: [runTest("MyTests.Should_Add",
    "Calc.cs", "xunit")] against a stub that returns a passed and a
    failed result. *)
Lemma runTest_reports_totals_witness :
  let effects :=
    fst (TestRunner.runTest stub_outcomes (stub_run passed_and_failed)
           "MyTests.Should_Add" "Calc.cs" "xunit") in
  TestRunner.Log "Total tests: 2. Passed: 1. Failed: 1. Skipped: 0" ∈ effects
  ∧ TestRunner.includes "Total tests: 2. Passed: 1. Failed: 1. Skipped: 0"
      (TestRunner.output effects) = true.
Proof.
  apply (runTest_reports_totals stub_outcomes (stub_run passed_and_failed)
           "MyTests.Should_Add" "Calc.cs" "xunit" true passed_and_failed);
    (discriminate || reflexivity).
Defined.

(** C5, as stated, fails in its example: in that scenario the text of the
    output channel does not include the summary followed by a full stop. *)
Lemma summary_has_no_final_stop :
  TestRunner.includes "Total tests: 2. Passed: 1. Failed: 1. Skipped: 0."
    (TestRunner.output
       (fst (TestRunner.runTest stub_outcomes (stub_run passed_and_failed)
               "MyTests.Should_Add" "Calc.cs" "xunit"))) = false.
Proof. reflexivity. Qed.

(** A list with one result tagged "NotFound": total 1, counts 0, 0, 0. *)
Lemma unknown_outcome_only_in_total_witness :
  let r := {| TestRunner.ResultMethodName := "MyTests.Should_Add";
              TestRunner.Outcome := "NotFound" |} in
  let t := TestRunner.totals stub_outcomes [r] in
  TestRunner._reportResults stub_outcomes [r]
  = [TestRunner.Log EmptyString;
     TestRunner.Log (TestRunner.summary 1 t);
     TestRunner.Log EmptyString]
  ∧ (∀ t0, TestRunner.tally stub_outcomes t0 r = t0)
  ∧ TestRunner.totalPassed t + TestRunner.totalFailed t + TestRunner.totalSkipped t < 1.
Proof.
  apply (unknown_outcome_only_in_total stub_outcomes
           [{| TestRunner.ResultMethodName := "MyTests.Should_Add";
               TestRunner.Outcome := "NotFound" |}]
           {| TestRunner.ResultMethodName := "MyTests.Should_Add";
              TestRunner.Outcome := "NotFound" |});
    [apply list_elem_of_here | discriminate | discriminate | discriminate].
Defined.

(** ** The project kind of a debug session *)

Section ProjectKind.
Import TestRunner.

(** C7.  When the files are saved and the project metadata carry neither
    [DotNetProject] nor [MsBuildProject], [debugTest] ends in its
    [catch] handler with the error "Expected project.json or .csproj
    project."; the error message shown contains that text; and the
    session consists of exactly the effects listed: no listener is
    created, started or closed, no start info is requested and nothing is
    handed to the debugging front-end. *)
Theorem debugTest_unsupported_project
    env testMethod fileName testFrameworkName saved projectInfo :
  saveAll env = Resolved saved →
  requestProjectInformation env fileName = Resolved projectInfo →
  DotNetProject projectInfo = None →
  MsBuildProject projectInfo = None →
  let run := debugTest env testMethod fileName testFrameworkName in
  let shown := "Failed to start debugger: Error: " +:+ unsupported_project in
  snd run = Failure (Js.Error unsupported_project)
  ∧ fst run
    = [ShowChannel; Log ("Debugging method '" +:+ testMethod +:+ "'...");
       Log EmptyString; SaveAll; Send (ProjectInformation fileName);
       ShowErrorMessage shown]
  ∧ includes unsupported_project shown = true
  ∧ (∀ f, NewDebugEventListener f ∉ fst run)
  ∧ (ListenerStart ∉ fst run)
  ∧ (∀ r, Send (GetTestStartInfo r) ∉ fst run)
  ∧ (∀ r, Send (DebugTestGetStartInfo r) ∉ fst run)
  ∧ (∀ config, StartDebug config ∉ fst run).
Proof.
  intros Hsave Hinfo Hdotnet Hmsbuild run shown.
  assert (run = ([ShowChannel; Log ("Debugging method '" +:+ testMethod +:+ "'...");
                  Log EmptyString; SaveAll; Send (ProjectInformation fileName);
                  ShowErrorMessage shown],
                 Failure (Js.Error unsupported_project))) as ->.
  { subst run. unfold debugTest. by rewrite Hsave, Hinfo, Hdotnet, Hmsbuild. }
  simpl. split; [done|]. split; [done|]. split; [reflexivity|].
  split; [intros f H; elem_cases H|].
  split; [intros H; elem_cases H|].
  split; [intros r H; elem_cases H|].
  split; [intros r H; elem_cases H|].
  intros c H; elem_cases H.
Qed.

Lemma legacy_configuration_has_no_pipe env program args cwd config :
  _createLaunchConfiguration env program args cwd JNull = inl config →
  config !! "debuggerEventsPipeName" = Some JNull
  ∧ config !! "program" = Some (JString program)
  ∧ config !! "args" = Some (JString args)
  ∧ config !! "cwd" = Some (JString cwd).
Proof.
  unfold _createLaunchConfiguration.
  destruct (unitTestDebugingOptions env); intros [= <-]; by simplify_map_eq.
Qed.

(** C10.  When the files are saved and the project metadata carry both
    [DotNetProject] and [MsBuildProject], [debugTest] takes the legacy
    branch: no listener is created or started, the start info is
    requested with [getTestStartInfo] and never with
    [debugTestGetStartInfo], and a configuration handed to the debugging
    front-end is built from the answer of [getTestStartInfo] and has
    [null] as its [debuggerEventsPipeName]. *)
Theorem debugTest_both_markers_is_legacy
    env testMethod fileName testFrameworkName saved projectInfo dotnet msbuild :
  saveAll env = Resolved saved →
  requestProjectInformation env fileName = Resolved projectInfo →
  DotNetProject projectInfo = Some dotnet →
  MsBuildProject projectInfo = Some msbuild →
  let request :=
    {| FileName := fileName; MethodName := testMethod;
       TestFrameworkName := testFrameworkName |} in
  let effects := fst (debugTest env testMethod fileName testFrameworkName) in
  (∀ f, NewDebugEventListener f ∉ effects)
  ∧ (ListenerStart ∉ effects)
  ∧ Send (GetTestStartInfo request) ∈ effects
  ∧ (∀ r, Send (DebugTestGetStartInfo r) ∉ effects)
  ∧ (∀ config, StartDebug config ∈ effects →
       config !! "debuggerEventsPipeName" = Some JNull
       ∧ ∃ response,
           getTestStartInfo env request = Resolved response
           ∧ config !! "program"
             = Some (JString (GetTestStartInfoResponse.Executable response))
           ∧ config !! "args"
             = Some (JString (GetTestStartInfoResponse.Argument response))
           ∧ config !! "cwd"
             = Some (JString (GetTestStartInfoResponse.WorkingDirectory response))).
Proof.
  intros Hsave Hinfo Hdotnet Hmsbuild request effects.
  subst effects. unfold debugTest. rewrite Hsave, Hinfo, Hdotnet.
  unfold debugTest_launch, _getLaunchConfiguration, _getLaunchConfigurationForLegacy.
  fold request.
  destruct (getTestStartInfo env request) as [response|reason|] eqn:Hstart; simpl.
  - destruct (_createLaunchConfiguration env _ _ _ JNull) as [config|thrown] eqn:Hconfig;
      simpl.
    + apply legacy_configuration_has_no_pipe in Hconfig as (Hpipe & Hprogram & Hargs & Hcwd).
      destruct (startDebug env config); simpl; legacy_facts;
        intros c H; elem_cases H; injection H as ->; eauto 10.
    + legacy_facts. intros c H; elem_cases H.
  - legacy_facts. intros c H; elem_cases H.
  - legacy_facts. intros c H; elem_cases H.
Qed.

End ProjectKind.

(** The scenario of the specification: project metadata without a marker. *)
Lemma debugTest_unsupported_project_witness :
  let run :=
    TestRunner.debugTest
      (stub_debug {| TestRunner.DotNetProject := None; TestRunner.MsBuildProject := None |})
      "MyTests.Should_Add" "Calc.cs" "xunit" in
  let shown := "Failed to start debugger: Error: " +:+ unsupported_project in
  snd run = TestRunner.Failure (Js.Error unsupported_project)
  ∧ fst run
    = [TestRunner.ShowChannel;
       TestRunner.Log ("Debugging method '" +:+ "MyTests.Should_Add" +:+ "'...");
       TestRunner.Log EmptyString; TestRunner.SaveAll;
       TestRunner.Send (TestRunner.ProjectInformation "Calc.cs");
       TestRunner.ShowErrorMessage shown]
  ∧ TestRunner.includes unsupported_project shown = true
  ∧ (∀ f, TestRunner.NewDebugEventListener f ∉ fst run)
  ∧ (TestRunner.ListenerStart ∉ fst run)
  ∧ (∀ r, TestRunner.Send (TestRunner.GetTestStartInfo r) ∉ fst run)
  ∧ (∀ r, TestRunner.Send (TestRunner.DebugTestGetStartInfo r) ∉ fst run)
  ∧ (∀ config, TestRunner.StartDebug config ∉ fst run).
Proof.
  apply (debugTest_unsupported_project
           (stub_debug {| TestRunner.DotNetProject := None;
                          TestRunner.MsBuildProject := None |})
           "MyTests.Should_Add" "Calc.cs" "xunit" true
           {| TestRunner.DotNetProject := None; TestRunner.MsBuildProject := None |});
    reflexivity.
Defined.

(** Project metadata with both markers. *)
Lemma debugTest_both_markers_is_legacy_witness :
  let both :=
    {| TestRunner.DotNetProject := Some {| TestRunner.Path := "project.json" |};
       TestRunner.MsBuildProject := Some {| TestRunner.Path := "Calc.csproj" |} |} in
  let request :=
    {| TestRunner.FileName := "Calc.cs"; TestRunner.MethodName := "MyTests.Should_Add";
       TestRunner.TestFrameworkName := "xunit" |} in
  let effects :=
    fst (TestRunner.debugTest (stub_debug both) "MyTests.Should_Add" "Calc.cs" "xunit") in
  (∀ f, TestRunner.NewDebugEventListener f ∉ effects)
  ∧ (TestRunner.ListenerStart ∉ effects)
  ∧ TestRunner.Send (TestRunner.GetTestStartInfo request) ∈ effects
  ∧ (∀ r, TestRunner.Send (TestRunner.DebugTestGetStartInfo r) ∉ effects)
  ∧ (∀ config, TestRunner.StartDebug config ∈ effects →
       config !! "debuggerEventsPipeName" = Some TestRunner.JNull
       ∧ ∃ response,
           TestRunner.getTestStartInfo (stub_debug both) request
           = TestRunner.Resolved response
           ∧ config !! "program"
             = Some (TestRunner.JString
                       (TestRunner.GetTestStartInfoResponse.Executable response))
           ∧ config !! "args"
             = Some (TestRunner.JString
                       (TestRunner.GetTestStartInfoResponse.Argument response))
           ∧ config !! "cwd"
             = Some (TestRunner.JString
                       (TestRunner.GetTestStartInfoResponse.WorkingDirectory response))).
Proof.
  apply (debugTest_both_markers_is_legacy
           (stub_debug
              {| TestRunner.DotNetProject := Some {| TestRunner.Path := "project.json" |};
                 TestRunner.MsBuildProject := Some {| TestRunner.Path := "Calc.csproj" |} |})
           "MyTests.Should_Add" "Calc.cs" "xunit" true
           {| TestRunner.DotNetProject := Some {| TestRunner.Path := "project.json" |};
              TestRunner.MsBuildProject := Some {| TestRunner.Path := "Calc.csproj" |} |}
           {| TestRunner.Path := "project.json" |}
           {| TestRunner.Path := "Calc.csproj" |});
    reflexivity.
Defined.

(** In that run the launch does reach the front-end, without a pipe. *)
Example both_markers_launch :
  fst (TestRunner.debugTest
         (stub_debug
            {| TestRunner.DotNetProject := Some {| TestRunner.Path := "project.json" |};
               TestRunner.MsBuildProject := Some {| TestRunner.Path := "Calc.csproj" |} |})
         "MyTests.Should_Add" "Calc.cs" "xunit")
  = [TestRunner.ShowChannel;
     TestRunner.Log "Debugging method 'MyTests.Should_Add'...";
     TestRunner.Log EmptyString; TestRunner.SaveAll;
     TestRunner.Send (TestRunner.ProjectInformation "Calc.cs");
     TestRunner.Subscribe;
     TestRunner.Send
       (TestRunner.GetTestStartInfo
          {| TestRunner.FileName := "Calc.cs";
             TestRunner.MethodName := "MyTests.Should_Add";
             TestRunner.TestFrameworkName := "xunit" |});
     TestRunner.Unsubscribe;
     TestRunner.StartDebug
       (<["cwd" := TestRunner.JString "/work"]>
          (<["args" := TestRunner.JString "test"]>
             (<["program" := TestRunner.JString "dotnet"]>
                (<["debuggerEventsPipeName" := TestRunner.JNull]>
                   (<["request" := TestRunner.JString "launch"]>
                      (<["type" := TestRunner.JString "coreclr"]>
                         (<["name" := TestRunner.JString ".NET Test Launch"]> ∅)))))))].
Proof. reflexivity. Qed.

(** * Further properties *)

(** Finds an element in a list built from [::] and [++]. *)
Ltac elem_find :=
  repeat first
    [ apply list_elem_of_here
    | apply list_elem_of_further
    | apply elem_of_app; right ].

(** Unfolds the methods behind a step of the channel, outermost first. *)
Ltac unfold_step :=
  unfold DebugEventListener.onData, DebugEventListener.onEnd, DebugEventListener.start,
    DebugEventListener.onProcessLaunched, DebugEventListener.onDebuggingStopped,
    DebugEventListener.dispose, DebugEventListener.new;
  unfold DebugEventListener._clearActiveInstance, DebugEventListener._onDebuggingStopped,
    DebugEventListener.onServerClosed, DebugEventListener._addListener;
  unfold DebugEventListener.close, DebugEventListener._fireEvent;
  unfold DebugEventListener.settled;
  unfold DebugEventListener.start_then;
  unfold DebugEventListener._removeSocketFileIfExists;
  unfold DebugEventListener._startListening, DebugEventListener.onListening,
    DebugEventListener.onServerError, DebugEventListener.appendLine,
    DebugEventListener.appendLine_on_server,
    DebugEventListener._onDebuggingStopped_on_server.

(** ** Sessions of [TestRunner] *)

Section RunnerEffects.
Import TestRunner.

Lemma occurrences_app p (a b : list Effect) :
  occurrences p (a ++ b) = occurrences p a + occurrences p b.
Proof. unfold occurrences. by rewrite List.filter_app, length_app. Qed.

Lemma occurrences_logs p (lines : list string) :
  (∀ line, p (Log line) = false) → occurrences p (map Log lines) = 0.
Proof.
  intros Hp. unfold occurrences.
  induction lines as [|l lines IH]; simpl; [done|]. by rewrite Hp.
Qed.

Lemma occurrences_cons p e (a : list Effect) :
  occurrences p (e :: a) = (if p e then 1 else 0) + occurrences p a.
Proof. unfold occurrences. simpl. by destruct (p e). Qed.

(** X1.  [runTest] subscribes to the test messages once, and on every
    path that comes to an end, with the summary or with the error
    message, it disposes of the subscription once.  Only a request that
    is never answered leaves it in place. *)
Theorem runTest_disposes_listener outcomes env testMethod fileName testFrameworkName :
  let run := runTest outcomes env testMethod fileName testFrameworkName in
  occurrences is_subscribe (fst run) = 1
  ∧ occurrences is_unsubscribe (fst run)
    = match snd run with Hung => 0 | _ => 1 end.
Proof.
  unfold runTest.
  destruct (saveAll env); [destruct (runTestAnswer env _)|..]; simpl;
    rewrite ?occurrences_cons, ?occurrences_app, ?occurrences_logs by done;
    simpl; rewrite ?occurrences_cons, ?occurrences_app; by simpl.
Qed.

(** X2.  [runTest] shows an error message exactly when its session
    failed, that is, when saving the files or the run request was
    rejected; the message is "Failed to run test because <reason>.". *)
Theorem runTest_error_iff_failed outcomes env testMethod fileName testFrameworkName message :
  let run := runTest outcomes env testMethod fileName testFrameworkName in
  ShowErrorMessage message ∈ fst run
  ↔ ∃ reason,
      snd run = Failure reason
      ∧ message = "Failed to run test because " +:+ Js.toString reason +:+ ".".
Proof.
  unfold runTest.
  destruct (saveAll env); [destruct (runTestAnswer env _)|..]; simpl; split;
    try (intros H; elem_cases H; try injection H as ->; eauto; fail);
    try (intros (reason & H & ->); try discriminate H; injection H as ->; elem_find).
Qed.

(** X3.  [runTest] sends a request upstream only when the files have
    been saved, and then it is the run request with the file name, the
    method name and the framework name it was called with. *)
Theorem runTest_request_after_save outcomes env testMethod fileName testFrameworkName r :
  let run := runTest outcomes env testMethod fileName testFrameworkName in
  Send r ∈ fst run
  ↔ (∃ saved, saveAll env = Resolved saved)
    ∧ r = RunTest (request_of testMethod fileName testFrameworkName).
Proof.
  unfold runTest, request_of.
  destruct (saveAll env); [destruct (runTestAnswer env _)|..]; simpl; split;
    try (intros H; elem_cases H; try injection H as ->; eauto; fail);
    try (intros ((saved & H) & ->); try discriminate H; elem_find).
Qed.

(** X4.  [debugTest] closes the listener exactly when it has created one
    and the session then failed. *)
Theorem debugTest_closes_listener_iff env testMethod fileName testFrameworkName :
  let run := debugTest env testMethod fileName testFrameworkName in
  ListenerClose ∈ fst run
  ↔ NewDebugEventListener fileName ∈ fst run ∧ ∃ reason, snd run = Failure reason.
Proof.
  unfold debugTest, debugTest_launch, _getLaunchConfiguration,
    _getLaunchConfigurationForLegacy, _getLaunchConfigurationForVSTest, debugTest_catch.
  repeat (case_match; simpl); simplify_eq; split;
    try (intros H; elem_cases H; fail);
    try (intros [H (reason & Hr)]; try discriminate Hr; elem_cases H; fail);
    try (intros _; split; [elem_find|eauto]; fail);
    try (intros _; elem_find).
Qed.

(** X5.  [debugTest] shows an error message exactly when its session
    failed; the message is "Failed to start debugger: <reason>". *)
Theorem debugTest_error_iff_failed env testMethod fileName testFrameworkName message :
  let run := debugTest env testMethod fileName testFrameworkName in
  ShowErrorMessage message ∈ fst run
  ↔ ∃ reason,
      snd run = Failure reason
      ∧ message = "Failed to start debugger: " +:+ Js.toString reason.
Proof.
  unfold debugTest, debugTest_launch, _getLaunchConfiguration,
    _getLaunchConfigurationForLegacy, _getLaunchConfigurationForVSTest, debugTest_catch.
  repeat (case_match; simpl); simplify_eq; split;
    try (intros H; elem_cases H; try injection H as ->; eauto; fail);
    try (intros (reason & H & ->); try discriminate H; injection H as ->; elem_find).
Qed.

End RunnerEffects.

Section RunnerLaunch.
Import TestRunner.

Lemma vstest_configuration_has_pipe env program args cwd pipe config :
  _createLaunchConfiguration env program args cwd (JString pipe) = inl config →
  config !! "debuggerEventsPipeName" = Some (JString pipe)
  ∧ config !! "program" = Some (JString program)
  ∧ config !! "args" = Some (JString args)
  ∧ config !! "cwd" = Some (JString cwd).
Proof.
  unfold _createLaunchConfiguration.
  destruct (unitTestDebugingOptions env); intros [= <-]; by simplify_map_eq.
Qed.

(** X6.  When the files are saved and the project metadata carry
    [MsBuildProject] and not [DotNetProject], [debugTest] creates a
    listener for the file and starts it; it asks for start info with
    [debugTestGetStartInfo], never with [getTestStartInfo], and only
    once the listener has started; and a configuration handed to the
    debugging front-end carries the pipe path of the listener as
    [debuggerEventsPipeName] and program, arguments and working
    directory of the answer. *)
Theorem debugTest_msbuild_is_vstest
    env testMethod fileName testFrameworkName saved projectInfo msbuild :
  saveAll env = Resolved saved →
  requestProjectInformation env fileName = Resolved projectInfo →
  DotNetProject projectInfo = None →
  MsBuildProject projectInfo = Some msbuild →
  let request := request_of testMethod fileName testFrameworkName in
  let effects := fst (debugTest env testMethod fileName testFrameworkName) in
  NewDebugEventListener fileName ∈ effects
  ∧ ListenerStart ∈ effects
  ∧ (∀ r, Send (GetTestStartInfo r) ∉ effects)
  ∧ (∀ r, Send (DebugTestGetStartInfo r) ∈ effects →
       r = request ∧ listenerStart env = Resolved ())
  ∧ (∀ config, StartDebug config ∈ effects →
       config !! "debuggerEventsPipeName" = Some (JString (listenerPipePath env))
       ∧ ∃ response,
           debugTestGetStartInfo env request = Resolved response
           ∧ config !! "program"
             = Some (JString (DebugTestGetStartInfoResponse.FileName response))
           ∧ config !! "args"
             = Some (JString (DebugTestGetStartInfoResponse.Arguments response))
           ∧ config !! "cwd"
             = Some (JString (DebugTestGetStartInfoResponse.WorkingDirectory response))).
Proof.
  intros Hsave Hinfo Hdotnet Hmsbuild request effects.
  subst effects. unfold debugTest. rewrite Hsave, Hinfo, Hdotnet, Hmsbuild.
  unfold debugTest_launch, _getLaunchConfiguration, _getLaunchConfigurationForVSTest,
    debugTest_catch.
  fold (request_of testMethod fileName testFrameworkName). fold request.
  destruct (listenerStart env) as [[]|reason|] eqn:Hlisten; simpl.
  2,3: (split; [elem_find|]; split; [elem_find|];
        split; [intros ? H; elem_cases H|];
        split; [intros ? H; elem_cases H|];
        intros c H; elem_cases H).
  destruct (debugTestGetStartInfo env request) as [response|reason|] eqn:Hstart; simpl.
  2,3: (split; [elem_find|]; split; [elem_find|];
        split; [intros ? H; elem_cases H|];
        split; [intros ? H; elem_cases H; by injection H as ->|];
        intros c H; elem_cases H).
  destruct (_createLaunchConfiguration env _ _ _ (JString _)) as [config|thrown] eqn:Hconfig;
    simpl.
  - apply vstest_configuration_has_pipe in Hconfig as (Hpipe & Hprogram & Hargs & Hcwd).
    destruct (startDebug env config); simpl;
      (split; [elem_find|]; split; [elem_find|];
       split; [intros ? H; elem_cases H|];
       split; [intros ? H; elem_cases H; by injection H as ->|];
       intros c H; elem_cases H; injection H as ->; eauto 10).
  - split; [elem_find|]; split; [elem_find|];
      split; [intros ? H; elem_cases H|];
      split; [intros ? H; elem_cases H; by injection H as ->|];
      intros c H; elem_cases H.
Qed.

(** X7.  Asking for start info, in either variant, subscribes to the test
    messages once; the subscription is disposed of when the request is
    answered with a response, and stays in place when the request is
    rejected or never answered. *)
Theorem start_info_subscription env debugType fileName testMethod testFrameworkName :
  let effects :=
    fst (_getLaunchConfiguration env debugType fileName testMethod testFrameworkName) in
  occurrences is_subscribe effects = 1
  ∧ occurrences is_unsubscribe effects
    = if start_info_resolved env debugType
           (request_of testMethod fileName testFrameworkName)
      then 1 else 0.
Proof.
  unfold _getLaunchConfiguration, _getLaunchConfigurationForLegacy,
    _getLaunchConfigurationForVSTest, start_info_resolved, request_of.
  destruct debugType; simpl; case_match; simpl;
    rewrite ?occurrences_cons, ?occurrences_app, ?occurrences_logs by done;
    simpl; rewrite ?occurrences_cons; by simpl.
Qed.

(** X8.  When the setting holds an object, the launch configuration is
    that object with the seven session fields written over it: a user
    option with the name of a session field is replaced, every other
    user option is passed on unchanged. *)
Theorem _createLaunchConfiguration_merges
    env debugOptions program args cwd debuggerEventsPipeName :
  unitTestDebugingOptions env = Object debugOptions →
  ∃ config,
    _createLaunchConfiguration env program args cwd debuggerEventsPipeName = inl config
    ∧ (∀ key, key ∉ session_fields → config !! key = debugOptions !! key)
    ∧ config !! "name" = Some (JString ".NET Test Launch")
    ∧ config !! "type" = Some (JString "coreclr")
    ∧ config !! "request" = Some (JString "launch")
    ∧ config !! "debuggerEventsPipeName" = Some debuggerEventsPipeName
    ∧ config !! "program" = Some (JString program)
    ∧ config !! "args" = Some (JString args)
    ∧ config !! "cwd" = Some (JString cwd).
Proof.
  intros Hoptions. unfold _createLaunchConfiguration. rewrite Hoptions.
  eexists. split; [done|]. split.
  - intros key Hkey. unfold session_fields in Hkey.
    rewrite !not_elem_of_cons in Hkey. destruct Hkey as (?&?&?&?&?&?&?&_).
    by rewrite !lookup_insert_ne.
  - by simplify_map_eq.
Qed.

(** X9.  When the setting holds [null], writing the first session field
    throws: [debugTest] hands nothing to the debugging front-end and
    does not complete, whatever the collaborators answer. *)
Theorem debugTest_null_options_never_launch env testMethod fileName testFrameworkName :
  unitTestDebugingOptions env = NullValue →
  let run := debugTest env testMethod fileName testFrameworkName in
  snd run ≠ Completed ∧ ∀ config, StartDebug config ∉ fst run.
Proof.
  intros Hnull.
  unfold debugTest, debugTest_launch, _getLaunchConfiguration,
    _getLaunchConfigurationForLegacy, _getLaunchConfigurationForVSTest,
    _createLaunchConfiguration, debugTest_catch.
  rewrite Hnull.
  repeat (case_match; simpl); simplify_eq; (split; [done|]);
    intros c H; elem_cases H.
Qed.

End RunnerLaunch.

Section Counts.
Import TestRunner.

Variable outcomes : TestOutcomes.

Lemma tally_counted t r :
  counted outcomes r →
  let t' := tally outcomes t r in
  totalPassed t' + totalFailed t' + totalSkipped t'
  = S (totalPassed t + totalFailed t + totalSkipped t).
Proof.
  unfold counted, tally. intros H.
  repeat case_decide; simpl; try lia. destruct H as [?|[?|?]]; congruence.
Qed.

Lemma tally_not_counted t r : ¬ counted outcomes r → tally outcomes t r = t.
Proof.
  unfold counted, tally. intros H.
  repeat case_decide; try done; exfalso; apply H; auto.
Qed.

Lemma counted_dec r : counted outcomes r ∨ ¬ counted outcomes r.
Proof.
  unfold counted.
  destruct (decide (Outcome r = Passed outcomes)); [auto|].
  destruct (decide (Outcome r = Failed outcomes)); [auto|].
  destruct (decide (Outcome r = Skipped outcomes)); [auto|].
  right. intros [?|[?|?]]; congruence.
Qed.

Lemma fold_tally_all_counted results t :
  let t' := fold_left (tally outcomes) results t in
  totalPassed t' + totalFailed t' + totalSkipped t'
  = totalPassed t + totalFailed t + totalSkipped t + length results
  ↔ Forall (counted outcomes) results.
Proof.
  revert t. induction results as [|r results IH]; intros t; simpl.
  - split; [constructor|lia].
  - destruct (counted_dec r) as [Hr|Hr].
    + pose proof (tally_counted t r Hr) as Ht. simpl in Ht.
      specialize (IH (tally outcomes t r)). simpl in IH.
      rewrite Forall_cons. split.
      * intros H. split; [done|]. apply IH. lia.
      * intros [_ H]. apply IH in H. lia.
    + rewrite (tally_not_counted t r Hr).
      pose proof (tally_sum_le outcomes results t) as Hle. simpl in Hle.
      rewrite Forall_cons. split; [lia|]. by intros [? _].
Qed.

(** X10.  The three counts of the summary never add up to more than the
    total, and they add up to the total exactly when every result
    carries one of the three tags. *)
Theorem totals_sum results :
  let t := totals outcomes results in
  totalPassed t + totalFailed t + totalSkipped t ≤ length results
  ∧ (totalPassed t + totalFailed t + totalSkipped t = length results
     ↔ Forall (counted outcomes) results).
Proof.
  split.
  - apply (tally_sum_le outcomes results
             {| totalPassed := 0; totalFailed := 0; totalSkipped := 0 |}).
  - apply (fold_tally_all_counted results
             {| totalPassed := 0; totalFailed := 0; totalSkipped := 0 |}).
Qed.

End Counts.

(** ** Runs of the channel *)

Section Invariants.
Import DebuggerEventsProtocol DebugEventListener.

Variable decode : list byte → DebuggerEvent + DecodeError.

Lemma step_listens_ok w i :
  Forall listen_ok (listens w) → Forall listen_ok (listens (step decode w i)).
Proof.
  intros Hw.
  destruct i; simpl; unfold_step;
    repeat (case_match; simpl); try done;
    try (apply Forall_app; split; [done|]; by repeat constructor);
    try (apply Forall_insert; [done|]).
  all: match goal with
    | H : listens _ !! _ = Some ?lc, Hw' : Forall listen_ok _ |- _ =>
        pose proof (Forall_lookup_1 _ _ _ _ Hw' H) as Hlc;
        destruct lc as [? ? [] []]; simpl in *; try done
    end.
Qed.

Lemma has_server_keep f (h : list Instance) i n :
  (∀ o, _serverSocket (f o) = _serverSocket o) →
  has_server h n → has_server (alter f i h) n.
Proof.
  intros Hf (o & Ho & Hs). destruct (decide (i = n)) as [->|Hne].
  - exists (f o). rewrite list_lookup_alter_eq, Ho. by rewrite Hf.
  - exists o. by rewrite list_lookup_alter_ne.
Qed.

Lemma has_server_set s (h : list Instance) i :
  i < length h → has_server (alter (with_serverSocket s) i h) i.
Proof.
  intros Hi. destruct (lookup_lt_is_Some_2 h i Hi) as [o Ho].
  exists (with_serverSocket s o). rewrite list_lookup_alter_eq, Ho. by eauto.
Qed.

Lemma has_server_set_other s (h : list Instance) i n :
  has_server h n → has_server (alter (with_serverSocket s) i h) n.
Proof.
  intros (o & Ho & Hs). destruct (decide (i = n)) as [->|Hne].
  - exists (with_serverSocket s o). rewrite list_lookup_alter_eq, Ho. by eauto.
  - exists o. by rewrite list_lookup_alter_ne.
Qed.

Lemma has_server_app (h l : list Instance) n : has_server h n → has_server (h ++ l) n.
Proof. intros (o & Ho & Hs). exists o. split; [|done]. by apply lookup_app_l_Some. Qed.

Lemma cont_ok_mono n m cb : n ≤ m → cont_ok n cb → cont_ok m cb.
Proof. unfold cont_ok. destruct (cc_cont cb); auto. lia. Qed.

Lemma step_inv w i : channel_inv w → channel_inv (step decode w i).
Proof.
  unfold channel_inv, slot_ok. intros [Hslot Hconts].
  assert (∀ k cb, pendingClose w !! k = Some cb → cont_ok (length (heap w)) cb) as Hcb.
  { intros k cb. by apply Forall_lookup_1. }
  destruct i; simpl; unfold_step;
    repeat (case_match; simpl in *); simplify_eq;
    rewrite ?length_alter, ?length_app; simpl.
  all: repeat match goal with
    | H1 : pendingClose _ !! _ = Some ?c, H2 : cc_cont ?c = StartOf ?j |- _ =>
        let Hlt := fresh "Hlt" in
        pose proof (Hcb _ _ H1) as Hlt; unfold cont_ok in Hlt; rewrite H2 in Hlt;
        clear H1
    end.
  all: split;
    [ try done;
      repeat first
        [ assumption
        | apply has_server_app
        | apply has_server_keep; [by intros []|]
        | apply has_server_set; rewrite ?length_alter;
          first [lia | eauto using lookup_lt_Some]; fail
        | apply has_server_set_other ]
    | try done;
      try (apply Forall_app; split; [done|]; repeat constructor;
           unfold cont_ok; simpl; eauto using lookup_lt_Some; fail);
      try (eapply Forall_impl; [eassumption|]; intros ?; apply cont_ok_mono; lia);
      try (apply Forall_delete; done) ].
Qed.

Lemma run_preserves (P : World → Prop) w inputs :
  (∀ w i, P w → P (step decode w i)) → P w → P (run decode w inputs).
Proof.
  intros Hstep. unfold run. revert w.
  induction inputs as [|i inputs IH]; intros w Hw; simpl; [done|].
  by apply IH, Hstep.
Qed.

(** X11.  In every run, the channel in the singleton slot exists and has
    created its server: the slot never refers to a channel that was not
    started. *)
Theorem slot_holder_has_server onWin32 inputs :
  slot_ok (run decode (initial onWin32) inputs).
Proof.
  apply (run_preserves channel_inv); [apply step_inv|].
  split; [done|constructor].
Qed.

(** X12.  In every run and for every call of [_startListening], the
    promise of [start] is not fulfilled before the server has reported
    that it listens, and it is settled once the server has. *)
Theorem start_promise_follows_listening onWin32 inputs :
  Forall listen_ok (listens (run decode (initial onWin32) inputs)).
Proof. apply (run_preserves (λ w, Forall listen_ok (listens w))); [apply step_listens_ok|constructor]. Qed.







End Invariants.

Section BusRoundTrip.
Import DebuggerEventsProtocol DebugEventListener.

Lemma removeListener_addListener event l (bus : EventEmitter.t) :
  EventEmitter.removeListener event l (EventEmitter.addListener event l bus) = bus.
Proof.
  unfold EventEmitter.addListener.
  rewrite (listeners_removeListener event l bus []); [apply app_nil_r|].
  apply not_elem_of_nil.
Qed.

(** X15.  Disposing of a registration straight after making it restores
    the channel: the callbacks registered before, the same callback
    among them, stay as they were and in their order. *)
Theorem dispose_after_register this event l w :
  dispose this event l (_addListener this event l w) = w.
Proof.
  unfold dispose, _addListener, update. simpl.
  rewrite list_alter_alter_eq.
  rewrite list_alter_id.
  - by destruct w.
  - intros [bus path server closed]. unfold with_eventBus; simpl.
    by rewrite removeListener_addListener.
Qed.

End BusRoundTrip.

(** ** The symbols of a document *)

Section Trees.
Import Protocol.

Lemma Node_induction (P : Node → Prop) :
  (∀ node, Forall P (children_of node) → P node) → ∀ node, P node.
Proof.
  intros Hnode. fix IH 1. intros node. apply Hnode.
  destruct node as [loc kind [children|] features]; unfold children_of; simpl;
    [|constructor].
  induction children as [|child rest IHrest]; constructor; [apply IH|exact IHrest].
Qed.

End Trees.

Section DocumentSymbols.
Import Protocol DocumentSymbolProvider.

Context {Range : Type} (toRange : QuickFix → Range).

Lemma toDocumentSymbol_unfold bucket node containerLabel :
  toDocumentSymbol toRange bucket node containerLabel
  = fold_left
      (λ bucket child, toDocumentSymbol toRange bucket child (Some (Text (Location node))))
      (children_of node) bucket
    ++ [own_symbol toRange node containerLabel].
Proof. destruct node as [loc kind [children|] features]; reflexivity. Qed.

Lemma fold_appends {A B} (f : list A → B → list A) (g : B → list A) (l : list B) :
  Forall (λ x, ∀ acc, f acc x = acc ++ g x) l →
  ∀ acc, fold_left f l acc = acc ++ flat_map g l.
Proof.
  induction 1 as [|x l Hx _ IH]; intros acc; simpl.
  - by rewrite app_nil_r.
  - by rewrite IH, Hx, app_assoc.
Qed.

Lemma toDocumentSymbol_bucket node :
  ∀ bucket containerLabel,
    toDocumentSymbol toRange bucket node containerLabel
    = bucket ++ toDocumentSymbol toRange [] node containerLabel.
Proof.
  induction node as [node IH] using Node_induction. intros bucket containerLabel.
  rewrite !toDocumentSymbol_unfold.
  assert (Forall
            (λ child, ∀ acc,
               toDocumentSymbol toRange acc child (Some (Text (Location node)))
               = acc ++ toDocumentSymbol toRange [] child (Some (Text (Location node))))
            (children_of node)) as Hchildren.
  { eapply Forall_impl; [exact IH|]. intros child Hchild acc. apply Hchild. }
  rewrite (fold_appends _ _ _ Hchildren bucket), (fold_appends _ _ _ Hchildren []).
  simpl. by rewrite app_assoc.
Qed.

Lemma toDocumentSymbol_layout node containerLabel :
  toDocumentSymbol toRange [] node containerLabel
  = flat_map
      (λ child, toDocumentSymbol toRange [] child (Some (Text (Location node))))
      (children_of node)
    ++ [own_symbol toRange node containerLabel].
Proof.
  rewrite toDocumentSymbol_unfold. f_equal.
  rewrite (fold_appends _
             (λ child, toDocumentSymbol toRange [] child (Some (Text (Location node))))).
  - done.
  - apply Forall_forall. intros child _ acc. apply toDocumentSymbol_bucket.
Qed.

(** X19.  [toDocumentSymbol] only appends to the bucket, and it lays a
    tree out with every node after its descendants: the symbols of the
    children's trees, in the order of the children and with the node's
    name as container of each child, and then the symbol of the node
    itself, with the container it was given.  A node without
    [ChildNodes] is a leaf. *)
Theorem toDocumentSymbol_postorder bucket node containerLabel :
  toDocumentSymbol toRange bucket node containerLabel
  = bucket
    ++ flat_map
         (λ child, toDocumentSymbol toRange [] child (Some (Text (Location node))))
         (children_of node)
    ++ [own_symbol toRange node containerLabel].
Proof. by rewrite toDocumentSymbol_bucket, toDocumentSymbol_layout. Qed.

Lemma tree_size_unfold node :
  tree_size node = S (fold_right (λ child n, tree_size child + n) 0 (children_of node)).
Proof. destruct node as [loc kind [children|] features]; reflexivity. Qed.

Lemma length_flat_map_sizes {A} (f : Node → list A) (l : list Node) :
  Forall (λ child, length (f child) = tree_size child) l →
  length (flat_map f l) = fold_right (λ child n, tree_size child + n) 0 l.
Proof.
  induction 1 as [|x l Hx _ IH]; simpl; [done|].
  by rewrite length_app, Hx, IH.
Qed.

(** X20.  [toDocumentSymbol] adds one symbol for each node of the tree,
    whatever the kinds of the nodes: a kind that [_kinds] does not know
    still gets its symbol. *)
Theorem toDocumentSymbol_one_per_node bucket node containerLabel :
  length (toDocumentSymbol toRange bucket node containerLabel)
  = length bucket + tree_size node.
Proof.
  rewrite toDocumentSymbol_bucket, length_app. f_equal.
  revert containerLabel.
  induction node as [node IH] using Node_induction. intros containerLabel.
  rewrite toDocumentSymbol_layout, tree_size_unfold, length_app. simpl.
  rewrite (length_flat_map_sizes _ (children_of node)); [lia|].
  eapply Forall_impl; [exact IH|]. intros child Hchild. apply Hchild.
Qed.

Lemma provideDocumentSymbols_flat nodes :
  provideDocumentSymbols toRange nodes
  = flat_map (λ node, toDocumentSymbol toRange [] node None) nodes.
Proof.
  unfold provideDocumentSymbols.
  rewrite (fold_appends _ (λ node, toDocumentSymbol toRange [] node None)); [done|].
  apply Forall_forall. intros node _ acc. apply toDocumentSymbol_bucket.
Qed.

Lemma contained_symbols node label :
  length (List.filter has_no_container (toDocumentSymbol toRange [] node (Some label))) = 0.
Proof.
  revert label. induction node as [node IH] using Node_induction. intros label.
  rewrite toDocumentSymbol_layout, List.filter_app, length_app. simpl.
  assert (∀ l, Forall (λ child, ∀ label, length (List.filter has_no_container
                 (toDocumentSymbol toRange [] child (Some label))) = 0) l →
          length (List.filter has_no_container
            (flat_map (λ child, toDocumentSymbol toRange [] child
                                  (Some (Text (Location node)))) l)) = 0) as Hall.
  { induction 1 as [|x l Hx _ IHl]; simpl; [done|].
    by rewrite List.filter_app, length_app, Hx, IHl. }
  by rewrite Hall.
Qed.

(** X21.  [provideDocumentSymbols] returns the layouts of the top-level
    definitions one after the other, in their order, and the symbols
    without a container are exactly the top-level ones: there are as
    many as there are top-level definitions. *)
Theorem provideDocumentSymbols_top_level nodes :
  provideDocumentSymbols toRange nodes
  = flat_map (λ node, toDocumentSymbol toRange [] node None) nodes
  ∧ length (List.filter has_no_container (provideDocumentSymbols toRange nodes))
    = length nodes.
Proof.
  split; [apply provideDocumentSymbols_flat|].
  rewrite provideDocumentSymbols_flat.
  induction nodes as [|node nodes IH]; simpl; [done|].
  rewrite List.filter_app, length_app, IH.
  rewrite toDocumentSymbol_layout, List.filter_app, length_app. simpl.
  assert (∀ l, length (List.filter has_no_container
            (flat_map (λ child, toDocumentSymbol toRange [] child
                                  (Some (Text (Location node)))) l)) = 0) as Hall.
  { induction l as [|x l IHl]; simpl; [done|].
    by rewrite List.filter_app, length_app, contained_symbols, IHl. }
  by rewrite Hall.
Qed.

End DocumentSymbols.

(** ** Code lenses *)

Section CodeLenses.
Import Protocol CodeLensProvider.

Context {Range : Type} (toRange : QuickFix → Range).
Variable inherited : string → bool.
Variable isDebugEnable : bool.

Abbreviation convert := (_convertQuickFix toRange inherited isDebugEnable).

Abbreviation next := (convert_next toRange inherited isDebugEnable).

Lemma convert_unfold bucket fileName node :
  convert bucket fileName node
  = if bool_decide (Kind node = "MethodDeclaration")
       && filteredSymbolNames inherited (Text (Location node))
    then Some bucket
    else
      match ChildNodes node with
      | Some children =>
          match
            fold_left (next fileName) children
              (Some (bucket ++ [OmniSharpCodeLens fileName (toRange (Location node))]))
          with
          | Some bucket => Some (_updateCodeLensForTest toRange bucket fileName node isDebugEnable)
          | None => None
          end
      | None => None
      end.
Proof. destruct node as [loc kind [children|] features]; reflexivity. Qed.

Lemma convert_filtered bucket fileName node :
  filtered_method node → convert bucket fileName node = Some bucket.
Proof.
  intros [Hkind Hname]. rewrite convert_unfold.
  unfold filteredSymbolNames.
  by rewrite (bool_decide_eq_true_2 _ Hkind), (bool_decide_eq_true_2 _ Hname).
Qed.

Lemma convert_next_filtered fileName acc node :
  filtered_method node → next fileName acc node = acc.
Proof. intros H. destruct acc; simpl; [by apply convert_filtered|done]. Qed.

Lemma provideCodeLenses_fold fileName nodes :
  provideCodeLenses toRange inherited isDebugEnable fileName nodes
  = fold_left (next fileName) nodes (Some []).
Proof. reflexivity. Qed.

(** X22.  A method declaration named Equals, Finalize, GetHashCode or
    ToString gets no lens, and neither does anything below it: taking
    such a node out of the children of a node, or out of the top-level
    definitions, changes nothing in the result. *)
Theorem filtered_method_is_skipped bucket fileName location kind features
    before method after :
  filtered_method method →
  _convertQuickFix toRange inherited isDebugEnable bucket fileName
    (mkNode location kind (Some (before ++ method :: after)) features)
  = _convertQuickFix toRange inherited isDebugEnable bucket fileName
      (mkNode location kind (Some (before ++ after)) features)
  ∧ provideCodeLenses toRange inherited isDebugEnable fileName (before ++ method :: after)
    = provideCodeLenses toRange inherited isDebugEnable fileName (before ++ after).
Proof.
  intros Hmethod. split.
  - rewrite !convert_unfold. cbn [ChildNodes].
    rewrite !fold_left_app. cbn [fold_left]. by rewrite convert_next_filtered.
  - rewrite !provideCodeLenses_fold, !fold_left_app. cbn [fold_left].
    by rewrite convert_next_filtered.
Qed.

(** X23.  [_updateCodeLensForTest] adds nothing to a node without
    [Features] or without a test feature.  Otherwise it adds, for the
    first test feature, a "run test" lens and, when debugging is
    enabled, a "debug test" lens after it; the framework name they carry
    is "mstest" for MSTestMethod and "xunit" for XunitTestMethod and for
    NUnitTestMethod alike. *)
Theorem test_lenses_of_first_feature bucket fileName node debug :
  _updateCodeLensForTest toRange bucket fileName node debug
  = match test_feature_of node with
    | None => bucket
    | Some feature =>
        let framework :=
          if decide (Name feature = "MSTestMethod") then "mstest" else "xunit" in
        bucket
        ++ CommandLens (toRange (Location node)) "run test" "dotnet.test.run"
             [Data feature; fileName; framework]
           :: (if debug
               then [CommandLens (toRange (Location node)) "debug test" "dotnet.test.debug"
                       [Data feature; fileName; framework]]
               else [])
    end.
Proof.
  unfold _updateCodeLensForTest, test_feature_of.
  destruct (Features node) as [features|]; [|done].
  destruct (List.find is_test_feature features) as [feature|] eqn:Hfind; [|done].
  apply List.find_some in Hfind as [_ Htest]. unfold is_test_feature in Htest.
  assert (Name feature ≠ "NunitTestMethod") as Hnunit.
  { intros Heq. rewrite Heq in Htest. by vm_compute in Htest. }
  simpl. destruct (decide (Name feature = "NunitTestMethod")); [done|].
  destruct debug; simpl; by rewrite <- ?app_assoc.
Qed.

Lemma update_appends bucket fileName node debug :
  _updateCodeLensForTest toRange bucket fileName node debug
  = bucket ++ _updateCodeLensForTest toRange [] fileName node debug.
Proof.
  unfold _updateCodeLensForTest.
  destruct (Features node) as [features|]; [|by rewrite app_nil_r].
  destruct (List.find is_test_feature features) as [feature|]; [|by rewrite app_nil_r].
  simpl. repeat case_decide; destruct debug; simpl; by rewrite <- ?app_assoc.
Qed.

Lemma fold_from_None fileName children :
  fold_left (next fileName) children None = None.
Proof. induction children; simpl; auto. Qed.

Lemma fold_convert_appends fileName children :
  Forall (λ child, ∀ bucket,
            convert bucket fileName child
            = (λ added, bucket ++ added) <$> convert [] fileName child) children →
  ∀ bucket start,
    fold_left (next fileName) children (Some (bucket ++ start))
    = (λ added, bucket ++ added)
        <$> fold_left (next fileName) children (Some start).
Proof.
  induction 1 as [|child rest Hchild _ IH]; intros bucket start; simpl; [done|].
  rewrite (Hchild (bucket ++ start)), (Hchild start).
  destruct (convert [] fileName child) as [added|]; simpl.
  - by rewrite <- app_assoc, IH.
  - by rewrite fold_from_None.
Qed.

(** X24.  [_convertQuickFix] only appends: the lenses already in the
    bucket stay in front, and whether it throws and what it appends do
    not depend on them. *)
Theorem _convertQuickFix_appends bucket fileName node :
  _convertQuickFix toRange inherited isDebugEnable bucket fileName node
  = (λ added, bucket ++ added)
      <$> _convertQuickFix toRange inherited isDebugEnable [] fileName node.
Proof.
  revert bucket. induction node as [node IH] using Node_induction. intros bucket.
  rewrite !convert_unfold.
  destruct (bool_decide (Kind node = "MethodDeclaration")
            && filteredSymbolNames inherited (Text (Location node))).
  { simpl. by rewrite app_nil_r. }
  destruct (ChildNodes node) as [children|] eqn:Hchildren; [|done].
  unfold children_of in IH. rewrite Hchildren in IH. simpl in IH.
  rewrite (fold_convert_appends fileName children IH bucket).
  simpl.
  destruct (fold_left (next fileName) children
              (Some [OmniSharpCodeLens fileName (toRange (Location node))]))
    as [added|]; simpl; [|done].
  by rewrite update_appends, (update_appends added), app_assoc.
Qed.

End CodeLenses.

(** ** Hover texts *)

Section Hover.
Import HoverProvider.

Variable trim : string → string.

Lemma after_CRLF_here after : after_prefix CRLF (CRLF +:+ after) = Some after.
Proof. reflexivity. Qed.

Lemma after_CRLF_not_yet c before after :
  after_prefix CRLF (String c before) = None →
  after_prefix CRLF (String c (before +:+ CRLF +:+ after)) = None.
Proof.
  unfold CRLF. cbn [after_prefix].
  destruct (decide ("013"%char = c)) as [<-|]; [|done].
  destruct before as [|d before].
  - intros _. reflexivity.
  - change (String d before +:+ String "013" (String "010" EmptyString) +:+ after)
      with (String d (before +:+ String "013" (String "010" EmptyString) +:+ after)).
    cbn [after_prefix]. by destruct (decide ("010"%char = d)).
Qed.

Lemma replace_first_CRLF before after :
  occurs CRLF before = false →
  replace CRLF LFLF (before +:+ CRLF +:+ after) = before +:+ LFLF +:+ after.
Proof.
  induction before as [|c before IH]; intros Hfree.
  - reflexivity.
  - cbn [occurs] in Hfree.
    destruct (after_prefix CRLF (String c before)) eqn:Hhere; [done|].
    change (String c before +:+ CRLF +:+ after)
      with (String c (before +:+ CRLF +:+ after)).
    cbn [replace]. rewrite (after_CRLF_not_yet _ _ _ Hhere).
    rewrite (IH Hfree). reflexivity.
Qed.

Lemma replace_absent s : occurs CRLF s = false → replace CRLF LFLF s = s.
Proof.
  induction s as [|c s IH]; intros Hfree; [reflexivity|].
  cbn [occurs] in Hfree. cbn [replace].
  destruct (after_prefix CRLF (String c s)); [done|].
  by rewrite (IH Hfree).
Qed.

(** X25.  [adjustText] turns the first carriage return and line feed of
    the trimmed text into two line feeds and leaves everything after it
    as it is, later carriage returns included. *)
Theorem adjustText_first_line_break text before after :
  occurs CRLF before = false →
  trim text = before +:+ CRLF +:+ after →
  adjustText trim text = before +:+ LFLF +:+ after.
Proof.
  intros Hfree Htrim. unfold adjustText. rewrite Htrim.
  by apply replace_first_CRLF.
Qed.

End Hover.

(** ** Examples for the further properties *)

(** A project with a .csproj only, every collaborator answering. *)
Lemma debugTest_msbuild_is_vstest_witness :
  let env := stub_debug msbuild_only in
  let request := request_of "MyTests.Should_Add" "Calc.cs" "xunit" in
  let effects := fst (TestRunner.debugTest env "MyTests.Should_Add" "Calc.cs" "xunit") in
  TestRunner.NewDebugEventListener "Calc.cs" ∈ effects
  ∧ TestRunner.ListenerStart ∈ effects
  ∧ (∀ r, TestRunner.Send (TestRunner.GetTestStartInfo r) ∉ effects)
  ∧ (∀ r, TestRunner.Send (TestRunner.DebugTestGetStartInfo r) ∈ effects →
       r = request ∧ TestRunner.listenerStart env = TestRunner.Resolved ())
  ∧ (∀ config, TestRunner.StartDebug config ∈ effects →
       config !! "debuggerEventsPipeName"
       = Some (TestRunner.JString (TestRunner.listenerPipePath env))
       ∧ ∃ response,
           TestRunner.debugTestGetStartInfo env request = TestRunner.Resolved response
           ∧ config !! "program"
             = Some (TestRunner.JString
                       (TestRunner.DebugTestGetStartInfoResponse.FileName response))
           ∧ config !! "args"
             = Some (TestRunner.JString
                       (TestRunner.DebugTestGetStartInfoResponse.Arguments response))
           ∧ config !! "cwd"
             = Some (TestRunner.JString
                       (TestRunner.DebugTestGetStartInfoResponse.WorkingDirectory response))).
Proof.
  apply (debugTest_msbuild_is_vstest (stub_debug msbuild_only)
           "MyTests.Should_Add" "Calc.cs" "xunit" true msbuild_only
           {| TestRunner.Path := "Calc.csproj" |});
    reflexivity.
Defined.

(** User options with a [name] of their own and with [justMyCode]. *)
Lemma _createLaunchConfiguration_merges_witness :
  ∃ config,
    TestRunner._createLaunchConfiguration
      (stub_options (TestRunner.Object user_options) dotnet_only)
      "dotnet" "test" "/work" TestRunner.JNull
    = inl config
    ∧ (∀ key, key ∉ session_fields → config !! key = user_options !! key)
    ∧ config !! "name" = Some (TestRunner.JString ".NET Test Launch")
    ∧ config !! "type" = Some (TestRunner.JString "coreclr")
    ∧ config !! "request" = Some (TestRunner.JString "launch")
    ∧ config !! "debuggerEventsPipeName" = Some TestRunner.JNull
    ∧ config !! "program" = Some (TestRunner.JString "dotnet")
    ∧ config !! "args" = Some (TestRunner.JString "test")
    ∧ config !! "cwd" = Some (TestRunner.JString "/work").
Proof.
  apply (_createLaunchConfiguration_merges
           (stub_options (TestRunner.Object user_options) dotnet_only)
           user_options "dotnet" "test" "/work" TestRunner.JNull).
  reflexivity.
Defined.

(** A project.json project whose setting holds [null]. *)
Lemma debugTest_null_options_never_launch_witness :
  let run :=
    TestRunner.debugTest (stub_options TestRunner.NullValue dotnet_only)
      "MyTests.Should_Add" "Calc.cs" "xunit" in
  snd run ≠ TestRunner.Completed ∧ ∀ config, TestRunner.StartDebug config ∉ fst run.
Proof.
  apply (debugTest_null_options_never_launch
           (stub_options TestRunner.NullValue dotnet_only)
           "MyTests.Should_Add" "Calc.cs" "xunit").
  reflexivity.
Defined.


(** Earlier revision: the started listener for Calc.cs receives
    DebuggingStopped and its connection ends. *)
Lemma sync_stop_then_end_once_witness :
  DebugEventListenerSync.trace
    (DebugEventListenerSync.onEnd 0
       (DebugEventListenerSync.onData DebuggerEventsProtocol.decodePacket 0
          frame_stopped sync_started))
  = DebugEventListenerSync.trace sync_started
    ++ [DebugEventListenerSync.Logged "Debugging complete.";
        DebugEventListenerSync.Logged EmptyString;
        DebugEventListenerSync.DebugTestStop "Calc.cs";
        DebugEventListenerSync.ServerClose 0].
Proof.
  apply (sync_stop_then_end_once DebuggerEventsProtocol.decodePacket 0
           {| DebugEventListenerSync._fileName := "Calc.cs";
              DebugEventListenerSync._pipePath := "pipe";
              DebugEventListenerSync._serverSocket := Some 0;
              DebugEventListenerSync._isClosed := false |}
           0 frame_stopped sync_started);
    reflexivity.
Defined.

(** Earlier revision: the listener for Other.cs is started while the one
    for Calc.cs holds the slot. *)
Lemma sync_second_start_takes_slot_witness :
  DebugEventListenerSync.s_activeInstance (DebugEventListenerSync.start 1 sync_two)
  = Some 1
  ∧ DebugEventListenerSync._isClosed
      <$> DebugEventListenerSync.heap (DebugEventListenerSync.start 1 sync_two) !! 0
    = Some true.
Proof.
  apply (sync_second_start_takes_slot 0 1
           {| DebugEventListenerSync._fileName := "Calc.cs";
              DebugEventListenerSync._pipePath := "pipe";
              DebugEventListenerSync._serverSocket := Some 0;
              DebugEventListenerSync._isClosed := false |}
           {| DebugEventListenerSync._fileName := "Other.cs";
              DebugEventListenerSync._pipePath := "pipe";
              DebugEventListenerSync._serverSocket := None;
              DebugEventListenerSync._isClosed := false |}
           sync_two);
    [discriminate | reflexivity..].
Defined.

(** A class Calc with the methods Add and ToString. *)
Lemma filtered_method_is_skipped_witness :
  CodeLensProvider._convertQuickFix range_is_location nothing_inherited true []
    "Calc.cs"
    (Protocol.mkNode (location_of "Calc") "ClassDeclaration"
       (Some ([method_named "Add"] ++ method_named "ToString" :: [])) None)
  = CodeLensProvider._convertQuickFix range_is_location nothing_inherited true []
      "Calc.cs"
      (Protocol.mkNode (location_of "Calc") "ClassDeclaration"
         (Some ([method_named "Add"] ++ [])) None)
  ∧ CodeLensProvider.provideCodeLenses range_is_location nothing_inherited true
      "Calc.cs" ([method_named "Add"] ++ method_named "ToString" :: [])
    = CodeLensProvider.provideCodeLenses range_is_location nothing_inherited true
        "Calc.cs" ([method_named "Add"] ++ []).
Proof.
  apply (filtered_method_is_skipped range_is_location nothing_inherited true []
           "Calc.cs" (location_of "Calc") "ClassDeclaration" None
           [method_named "Add"] (method_named "ToString") []).
  split; [reflexivity | repeat constructor].
Defined.

(** A text of three lines. *)
Lemma adjustText_first_line_break_witness :
  HoverProvider.adjustText already_trimmed
    ("one" +:+ HoverProvider.CRLF +:+ "two" +:+ HoverProvider.CRLF +:+ "three")
  = "one" +:+ HoverProvider.LFLF +:+ "two" +:+ HoverProvider.CRLF +:+ "three".
Proof.
  apply (adjustText_first_line_break already_trimmed
           ("one" +:+ HoverProvider.CRLF +:+ "two" +:+ HoverProvider.CRLF +:+ "three")
           "one" ("two" +:+ HoverProvider.CRLF +:+ "three"));
    reflexivity.
Defined.
